(** * HuggingFaceFineTunedDemo: the quarterly Chronos rebalance

    A shallow embedding of
    [06 Applied Machine Learning/18 Amazon Chronos Model/02 Fine-Tuned Model/main.py].

    The algorithm class is a thin orchestration layer over services it does
    not implement: the history feed, the Chronos trainer and pipeline, SciPy's
    SLSQP solver and the order sink of the host framework.  Those appear here
    as the fields of a [Framework] record; every theorem quantifies over an
    arbitrary framework.  The code of the class itself ([_sharpe_ratio],
    [_optimize_portfolio], [_trade], [_train_chronos]) is embedded as written.

    Conventions.
    - A Python [float] is idealised as a real number ([R]); a pandas missing
      value (NaN) is [None] in an [option R].
    - [datetime] and [timedelta] are integer counts of microseconds, the
      resolution of Python's [datetime] module; [datetime.min] is [0].
    - The index of a price series is a calendar day ([date], a day ordinal):
      the algorithm sets [daily_precise_end_time = False], so every daily bar
      is stamped at midnight.
    - A Python [dict] is an association list in insertion order. *)

From Stdlib Require Import ZArith List Bool String Lia FinFun Sorted.
From Stdlib Require Import Permutation Reals Lra.
Import ListNotations.

Set Implicit Arguments.

(** ** Exceptions and results *)

Inductive exn : Type :=
| KeyError
| IndexError
| ZeroDivisionError
| ValueError
| ExternalError (msg : string).

Inductive result (A : Type) : Type :=
| Ok (a : A)
| Raise (e : exn).

Arguments Ok {A} a.
Arguments Raise {A} e.

Module Res.

Definition bind {A B} (m : result A) (f : A -> result B) : result B :=
  match m with
  | Ok a => f a
  | Raise e => Raise e
  end.

Fixpoint mapM {A B} (f : A -> result B) (l : list A) : result (list B) :=
  match l with
  | [] => Ok []
  | a :: l' =>
      bind (f a) (fun b => bind (mapM f l') (fun bs => Ok (b :: bs)))
  end.

End Res.

Declare Scope res_scope.
Delimit Scope res_scope with res.
Notation "x <- m ;; k" := (Res.bind m (fun x => k))
  (at level 61, m at next level, right associativity) : res_scope.

(** ** Time *)

Definition datetime := Z.
Definition timedelta := Z.
Definition date := Z.

Definition microseconds_per_day : Z := 86400000000%Z.

(** [timedelta(d)]: a span of [d] days. *)
Definition timedelta_days (d : Z) : timedelta := (d * microseconds_per_day)%Z.

Definition datetime_min : datetime := 0%Z.

(** ** Data model *)

(** A [Symbol] identifies a tradable asset. *)
Definition Symbol := string.

(** A Python [dict] keyed by symbols, in insertion order. *)
Definition dict (V : Type) := list (Symbol * V).

Module Dict.

Fixpoint get {V} (k : Symbol) (d : dict V) : option V :=
  match d with
  | [] => None
  | (k', v) :: d' => if String.eqb k k' then Some v else get k d'
  end.

(** [d[k] = v]: an existing key keeps its position, a new key goes last. *)
Fixpoint set {V} (k : Symbol) (v : V) (d : dict V) : dict V :=
  match d with
  | [] => [(k, v)]
  | (k', v') :: d' =>
      if String.eqb k k' then (k', v) :: d' else (k', v') :: set k v d'
  end.

Definition keys {V} (d : dict V) : list Symbol := map fst d.
Definition values {V} (d : dict V) : list V := map snd d.

End Dict.

(** One column of a price table together with the table's time index; a
    missing value is [None]. *)
Definition Series := list (date * option R).

(** [self.history(symbols, period)['close'].unstack(0)]: close prices, one
    column per symbol. *)
Definition CloseTable := dict Series.

(** [history[symbol]]: a label that is not a column raises [KeyError]. *)
Definition column (history : CloseTable) (symbol : Symbol) : result Series :=
  match Dict.get symbol history with
  | Some s => Ok s
  | None => Raise KeyError
  end.

(** [.dropna()] on one column: the rows whose value is missing are removed. *)
Fixpoint dropna (s : Series) : list (date * R) :=
  match s with
  | [] => []
  | (d, Some v) :: s' => (d, v) :: dropna s'
  | (_, None) :: s' => dropna s'
  end.

(** *** Resampling to a strict daily frequency *)

(** The days [lo, lo+1, ..., hi]. *)
Definition day_range (lo hi : date) : list date :=
  map (fun i => (lo + Z.of_nat i)%Z) (seq 0 (Z.to_nat (hi - lo + 1))).

Fixpoint value_at (d : date) (s : list (date * R)) : option R :=
  match s with
  | [] => None
  | (d', v) :: s' => if (d =? d')%Z then Some v else value_at d s'
  end.

Fixpoint has_duplicates (l : list date) : bool :=
  match l with
  | [] => false
  | d :: l' => existsb (Z.eqb d) l' || has_duplicates l'
  end.

Definition first_day (d0 : date) (l : list date) : date := fold_left Z.min l d0.
Definition last_day (d0 : date) (l : list date) : date := fold_left Z.max l d0.

(** [df.resample('D').asfreq()]: pandas reindexes the frame on the daily grid
    that runs from the earliest to the latest day of the index.  A day of the
    grid takes the value stored at that day, or the missing marker when the
    index has no such day; reindexing an index with a repeated label raises
    [ValueError]. *)
Definition resample_D_asfreq (s : list (date * R)) : result Series :=
  match map fst s with
  | [] => Ok []
  | d0 :: ds =>
      if has_duplicates (d0 :: ds) then Raise ValueError
      else Ok (map (fun d => (d, value_at d s))
                   (day_range (first_day d0 ds) (last_day d0 ds)))
  end.

(** *** Gathering the training data (main.py, lines 132-143) *)

Local Open Scope res_scope.

(** The body of [for symbol in symbols: ...]; [acc] is
    [training_data_by_symbol].  The frame stored for a symbol is its
    resampled series; the renaming of its value column to ['target'] changes
    a label only and is not represented. *)
Fixpoint gather_training_data (history : CloseTable) (symbols : list Symbol)
    (acc : dict Series) : result (dict Series) :=
  match symbols with
  | [] => Ok acc
  | symbol :: rest =>
      col <- column history symbol ;;
      let df := dropna col in
      if (List.length df <? 10)%nat then
        (* Skip this asset if there is very little data. *)
        gather_training_data history rest acc
      else
        adjusted_df <- resample_D_asfreq df ;;
        gather_training_data history rest (Dict.set symbol adjusted_df acc)
  end.

(** [torch.tensor(history[symbol].dropna())]: the prices of one asset. *)
Definition price_tensor (history : CloseTable) (symbol : Symbol)
    : result (list R) :=
  col <- column history symbol ;;
  Ok (map snd (dropna col)).

(** ** Numeric helpers (NumPy and pandas on idealised floats) *)

Local Open Scope R_scope.

(** A [pd.DataFrame] of floats: labelled columns, in column order. *)
Definition DataFrame := dict (list R).

(** [np.sum]. *)
Definition np_sum (l : list R) : R := fold_right Rplus 0 l.

(** Element-wise product of two one-dimensional arrays; arrays of different
    lengths do not combine. *)
Fixpoint np_multiply (a b : list R) : result (list R) :=
  match a, b with
  | [], [] => Ok []
  | x :: a', y :: b' => (p <- np_multiply a' b' ;; Ok (x * y :: p))%res
  | _, _ => Raise ValueError
  end.

(** [np.dot] of two vectors. *)
Definition np_dot (a b : list R) : result R :=
  (p <- np_multiply a b ;; Ok (np_sum p))%res.

(** [np.dot] of a matrix (a list of rows) and a vector. *)
Definition np_dot_matrix (m : list (list R)) (v : list R) : result (list R) :=
  Res.mapM (fun row => np_dot row v) m.

(** [Series.mean()]. *)
Definition mean (col : list R) : R := np_sum col / INR (List.length col).

Fixpoint centered_products (a b : list R) (ma mb : R) : list R :=
  match a, b with
  | x :: a', y :: b' => (x - ma) * (y - mb) :: centered_products a' b' ma mb
  | _, _ => []
  end.

(** The sample covariance of two columns (one delta degree of freedom, the
    default of [DataFrame.cov()]). *)
Definition cov (a b : list R) : R :=
  np_sum (centered_products a b (mean a) (mean b)) / (INR (List.length a) - 1).

(** [returns.mean()]: one mean per column. *)
Definition DataFrame_mean (df : DataFrame) : list R :=
  map mean (Dict.values df).

(** [returns.cov()]: the matrix of pairwise column covariances. *)
Definition DataFrame_cov (df : DataFrame) : list (list R) :=
  map (fun a => map (fun b => cov a b) (Dict.values df)) (Dict.values df).

(** *** [equity_curves.pct_change().dropna()] (main.py, line 97) *)

(** One cell of [pct_change()]: the change [p / prev - 1].  The quotient
    [0 / 0] is not a number and gives the missing marker.  A non-zero price
    over a zero price is an infinity for floats, which the reals do not
    have; pandas keeps such a cell, and so does the model, with the value
    real arithmetic gives the quotient. *)
Definition change (prev p : R) : option R :=
  if Req_dec_T prev 0 then
    if Req_dec_T p 0 then None else Some (p / prev - 1)
  else Some (p / prev - 1).

Fixpoint pct_change_from (prev : R) (l : list R) : list (option R) :=
  match l with
  | [] => []
  | p :: l' => change prev p :: pct_change_from p l'
  end.

(** [series.pct_change()]: the first cell has no predecessor and is
    missing. *)
Definition pct_change (col : list R) : list (option R) :=
  match col with
  | [] => []
  | p0 :: rest => None :: pct_change_from p0 rest
  end.

Definition notna (cell : option R) : bool :=
  match cell with Some _ => true | None => false end.

Definition cell_at (t : nat) (cells : list (option R)) : option R :=
  nth t cells None.

(** Number of rows of a table given by its columns (a frame is
    rectangular). *)
Definition n_rows (columns : list (list (option R))) : nat :=
  match columns with
  | [] => 0%nat
  | c :: _ => List.length c
  end.

(** [.dropna()] on a table keeps row [t] when no column is missing there. *)
Definition row_is_complete (columns : list (list (option R))) (t : nat)
    : bool :=
  forallb (fun cells => notna (cell_at t cells)) columns.

Definition kept_rows (columns : list (list (option R))) : list nat :=
  filter (row_is_complete columns) (seq 0 (n_rows columns)).

(** The cells of one column at the kept rows. *)
Definition keep (rows : list nat) (cells : list (option R)) : list R :=
  flat_map (fun t => match cell_at t cells with
                     | Some v => [v]
                     | None => []
                     end) rows.

(** [equity_curves.pct_change().dropna()]: the change of every column, then
    the rows in which no column is missing.  The first row always goes, and
    so does every row where some price and its predecessor are both zero. *)
Definition pct_change_dropna (equity_curves : DataFrame) : DataFrame :=
  map (fun '(label, col) =>
         (label,
          keep (kept_rows (map pct_change (Dict.values equity_curves)))
               (pct_change col)))
      equity_curves.

(** *** [_sharpe_ratio] (main.py, lines 78-94) *)

Definition _sharpe_ratio (weights : list R) (returns : DataFrame)
    (risk_free_rate : R) (trading_days_per_year : R) : result R :=
  (* Calculate the annualized returns and covariance matrix. *)
  let mean_returns :=
    map (fun m => m * trading_days_per_year) (DataFrame_mean returns) in
  let cov_matrix :=
    map (map (fun c => c * trading_days_per_year)) (DataFrame_cov returns) in
  (* Calculate the Sharpe ratio. *)
  (products <- np_multiply mean_returns weights ;;
   let portfolio_return := np_sum products in
   cw <- np_dot_matrix cov_matrix weights ;;
   variance <- np_dot weights cw ;;
   let portfolio_std := sqrt variance in
   let sharpe_ratio := (portfolio_return - risk_free_rate) / portfolio_std in
   (* Return negative Sharpe ratio because we minimize this function. *)
   Ok (- sharpe_ratio))%res.

(** *** [np.quantile(samples, q, axis=0)] *)

Fixpoint insert_sorted (x : R) (l : list R) : list R :=
  match l with
  | [] => [x]
  | y :: l' => if Rle_dec x y then x :: l else y :: insert_sorted x l'
  end.

Definition np_sort (a : list R) : list R := fold_right insert_sorted [] a.

(** NumPy's linear interpolation between two neighbours. *)
Definition lerp (a b t : R) : R :=
  if Rlt_dec t (1 / 2) then a + (b - a) * t else b - (b - a) * (1 - t).

(** The quantile of a one-dimensional array with NumPy's default method
    (linear): the virtual position [(n - 1) * q] in the sorted data,
    interpolated between its two neighbours; at the upper end both
    neighbours are the last element. *)
Definition quantile_1d (a : list R) (q : R) : R :=
  let arr := np_sort a in
  let n := List.length a in
  let virtual_index := (INR n - 1) * q in
  let previous := Z.to_nat (Int_part virtual_index) in
  let next := Nat.min (S previous) (n - 1) in
  let gamma := virtual_index - IZR (Int_part virtual_index) in
  lerp (nth previous arr 0) (nth next arr 0) gamma.

(** The values of all sample paths at time step [t]. *)
Definition samples_at (t : nat) (samples : list (list R)) : list R :=
  map (fun path => nth t path 0) samples.

(** Number of time steps of a sample tensor of shape (samples, steps); a
    tensor without any sample path is read as having no time step. *)
Definition n_steps (samples : list (list R)) : nat :=
  match samples with
  | [] => 0%nat
  | path :: _ => List.length path
  end.

(** [np.quantile(samples, q, axis=0)]: axis 0 runs over the sample paths, so
    the result has one entry per time step. *)
Definition np_quantile_axis0 (samples : list (list R)) (q : R) : list R :=
  map (fun t => quantile_1d (samples_at t samples) q)
      (seq 0 (n_steps samples)).

Local Close Scope R_scope.

(** ** The host framework and the external libraries *)

Definition Path := string.

(** A portfolio target: an asset and the fraction of the portfolio it gets. *)
Definition PortfolioTarget := (Symbol * R)%type.

(** The arguments [_trade] gives to [_train_chronos], with the defaults the
    training run depends on. *)
Record TrainConfig : Type := {
  probability : list R;
  context_length : nat;
  prediction_length : nat;
  min_past : nat;
  max_steps : nat;
  optim : string;
  model_id : string;
  output_dir : Path;
  learning_rate : R;
  tf32 : bool
}.

(** What [scipy.optimize.minimize] hands back: the final point and whether
    the solver reports convergence. *)
Record OptimizeResult : Type := {
  x : list R;
  success : bool
}.

(** The services the algorithm calls.  Each may raise. *)
Record Framework : Type := {
  Pipeline : Type;
  (** [self.history(symbols, period)['close'].unstack(0)] at a given time. *)
  history_close : list Symbol -> timedelta -> datetime -> result CloseTable;
  (** [self.risk_free_interest_rate_model.get_interest_rate(time)]. *)
  get_interest_rate : datetime -> R;
  (** The Chronos training run: datasets, model, [Trainer.train()],
      [save_pretrained]; returns the output directory. *)
  chronos_train : list Series -> TrainConfig -> result Path;
  (** [ChronosPipeline.from_pretrained(path, device_map=..., ...)]. *)
  from_pretrained : Path -> string -> result Pipeline;
  (** [pipeline.predict(context, prediction_length)]: for each context series
      a tensor of shape (samples, steps). *)
  predict : Pipeline -> list (list R) -> nat -> result (list (list (list R)));
  (** [minimize(fun, x0, method='SLSQP', bounds=..., constraints=...)]. *)
  minimize : (list R -> result R) -> list R -> list (R * R) ->
             (list R -> R) -> result OptimizeResult
}.

(** The calls that leave the algorithm, in the order they are made. *)
Inductive Call : Type :=
| CallHistory (symbols : list Symbol) (period : timedelta)
| CallTrain (training_data : list Series) (cfg : TrainConfig)
| CallFromPretrained (path : Path)
| CallPredict (context : list (list R)) (horizon : nat)
| CallMinimize (x0 : list R) (returns : DataFrame) (risk_free_rate : R)
| CallSetHoldings (targets : list PortfolioTarget) (liquidate : bool).

Definition is_set_holdings (c : Call) : bool :=
  match c with CallSetHoldings _ _ => true | _ => false end.

Definition is_minimize (c : Call) : bool :=
  match c with CallMinimize _ _ _ => true | _ => false end.

(** ** The algorithm object *)

Record Algo : Type := {
  (** framework-owned *)
  time : datetime;
  is_warming_up : bool;
  selected : list Symbol;              (* self._universe.selected *)
  holdings : list PortfolioTarget;     (* the allocation last requested *)
  (** set in [initialize] *)
  _lookback_period : timedelta;
  _prediction_length : nat;
  _last_rebalance : datetime;
  _device_map : string;
  _optimizer : string;
  _model_name : string;
  _model_path : Path
}.

Definition with_last_rebalance (t : datetime) (s : Algo) : Algo :=
  {| time := time s; is_warming_up := is_warming_up s;
     selected := selected s; holdings := holdings s;
     _lookback_period := _lookback_period s;
     _prediction_length := _prediction_length s;
     _last_rebalance := t;
     _device_map := _device_map s; _optimizer := _optimizer s;
     _model_name := _model_name s; _model_path := _model_path s |}.

Definition with_holdings (h : list PortfolioTarget) (s : Algo) : Algo :=
  {| time := time s; is_warming_up := is_warming_up s;
     selected := selected s; holdings := h;
     _lookback_period := _lookback_period s;
     _prediction_length := _prediction_length s;
     _last_rebalance := _last_rebalance s;
     _device_map := _device_map s; _optimizer := _optimizer s;
     _model_name := _model_name s; _model_path := _model_path s |}.

(** The framework moving the clock to the next scheduled tick. *)
Definition with_time (t : datetime) (s : Algo) : Algo :=
  {| time := t; is_warming_up := is_warming_up s;
     selected := selected s; holdings := holdings s;
     _lookback_period := _lookback_period s;
     _prediction_length := _prediction_length s;
     _last_rebalance := _last_rebalance s;
     _device_map := _device_map s; _optimizer := _optimizer s;
     _model_name := _model_name s; _model_path := _model_path s |}.

(** [initialize] (main.py, lines 30-72): the object as the constructor
    leaves it, before the framework selects a universe.  [lookback_years] is
    the parameter of that name (default 1) and [cuda] is
    [torch.cuda.is_available()]. *)
Definition initialize (now : datetime) (lookback_years : Z) (cuda : bool)
    : Algo :=
  {| time := now;
     is_warming_up := true;
     selected := [];
     holdings := [];
     _lookback_period := timedelta_days (365 * lookback_years);
     _prediction_length := 3 * 21;
     _last_rebalance := datetime_min;
     _device_map := if cuda then "cuda"%string else "cpu"%string;
     _optimizer :=
       if cuda then "adamw_torch_fused"%string else "adamw_torch"%string;
     _model_name := "amazon/chronos-t5-tiny"%string;
     _model_path := "llm/fine-tune/amazon-chronos-t5-tiny/"%string |}.

(** ** The method monad: state of [self], exceptions, and the call log

    A method maps the object to its outcome, the object as the method leaves
    it (also when it raises) and the external calls it made. *)

Definition M (A : Type) : Type := Algo -> result A * Algo * list Call.

Module Alg.

Definition ret {A} (a : A) : M A := fun s => (Ok a, s, []).

Definition bind {A B} (m : M A) (f : A -> M B) : M B :=
  fun s =>
    match m s with
    | (Ok a, s', log) =>
        let '(r, s'', log') := f a s' in (r, s'', log ++ log')
    | (Raise e, s', log) => (Raise e, s', log)
    end.

Definition gets {A} (f : Algo -> A) : M A := fun s => (Ok (f s), s, []).

Definition modify (f : Algo -> Algo) : M unit := fun s => (Ok tt, f s, []).

(** A pure computation that may raise. *)
Definition lift {A} (r : result A) : M A := fun s => (r, s, []).

(** An external call: logged, then answered by the framework. *)
Definition call {A} (c : Call) (r : result A) : M A := fun s => (r, s, [c]).

End Alg.

Declare Scope alg_scope.
Delimit Scope alg_scope with alg.
Notation "x <- m ;; k" := (Alg.bind m (fun x => k))
  (at level 61, m at next level, right associativity) : alg_scope.
Notation "m ;;; k" := (Alg.bind m (fun _ => k))
  (at level 61, right associativity) : alg_scope.

(** ** The methods of [HuggingFaceFineTunedDemo] *)

(** [a[i]]; an index past the end raises [IndexError]. *)
Definition getitem {A} (a : list A) (i : nat) : result A :=
  match nth_error a i with
  | Some v => Ok v
  | None => Raise IndexError
  end.

(** [n * [1.0 / n]]: dividing by a zero count raises. *)
Definition uniform (n : nat) : result (list R) :=
  if (n =? 0)%nat then Raise ZeroDivisionError
  else Ok (repeat (1 / INR n)%R n).

(** *** [_optimize_portfolio] (main.py, lines 96-115) *)

Definition trading_days_per_year : R := 252%R.

Definition _optimize_portfolio (fw : Framework) (equity_curves : DataFrame)
    : M (list R) :=
  (let returns := pct_change_dropna equity_curves in
   let num_assets := List.length returns in
   initial_guess <- Alg.lift (uniform num_assets) ;;
   now <- Alg.gets time ;;
   let risk_free_rate := get_interest_rate fw now in
   (* Find portfolio weights that maximize the forward Sharpe ratio. *)
   result <- Alg.call (CallMinimize initial_guess returns risk_free_rate)
               (minimize fw
                  (fun weights =>
                     _sharpe_ratio weights returns risk_free_rate
                                   trading_days_per_year)
                  initial_guess
                  (repeat (0%R, 1%R) num_assets)
                  (fun weights => (np_sum weights - 1)%R)) ;;
   Alg.ret (x result))%alg.

(** *** [_train_chronos] (main.py, lines 198-341)

    [probability] is not passed by [_trade], so it defaults to the uniform
    list; everything after that is the external training run. *)
Definition _train_chronos (fw : Framework) (training_data : list Series)
    (context_length prediction_length : nat) (optim model_id : string)
    (output_dir : Path) (learning_rate : R) (tf32 : bool) (max_steps : nat)
    : M Path :=
  (probability <- Alg.lift (uniform (List.length training_data)) ;;
   let cfg := {| probability := probability;
                 context_length := context_length;
                 prediction_length := prediction_length;
                 min_past := 64;
                 max_steps := max_steps;
                 optim := optim;
                 model_id := model_id;
                 output_dir := output_dir;
                 learning_rate := learning_rate;
                 tf32 := tf32 |} in
   Alg.call (CallTrain training_data cfg)
            (chronos_train fw training_data cfg))%alg.

(** *** The comprehensions of [_trade] *)

(** [{symbol: np.quantile(all_forecasts[i].numpy(), 0.5, axis=0)
      for i, symbol in enumerate(tradable_symbols)}], from index [i] on. *)
Fixpoint median_forecasts (all_forecasts : list (list (list R))) (i : nat)
    (symbols : list Symbol) (acc : dict (list R)) : result (dict (list R)) :=
  match symbols with
  | [] => Ok acc
  | symbol :: rest =>
      samples <- getitem all_forecasts i ;;
      median_forecasts all_forecasts (S i) rest
        (Dict.set symbol (np_quantile_axis0 samples (1 / 2)%R) acc)
  end.

Fixpoint same_length (n : nat) (cols : list (list R)) : bool :=
  match cols with
  | [] => true
  | c :: cols' => (List.length c =? n)%nat && same_length n cols'
  end.

(** [pd.DataFrame(columns)]: all arrays must be of the same length. *)
Definition pd_DataFrame (columns : dict (list R)) : result DataFrame :=
  match Dict.values columns with
  | [] => Ok columns
  | c :: cols =>
      if same_length (List.length c) cols then Ok columns
      else Raise ValueError
  end.

(** [[PortfolioTarget(symbol, optimal_weights[i])
      for i, symbol in enumerate(tradable_symbols)]], from index [i] on. *)
Fixpoint portfolio_targets (optimal_weights : list R) (i : nat)
    (symbols : list Symbol) : result (list PortfolioTarget) :=
  match symbols with
  | [] => Ok []
  | symbol :: rest =>
      w <- getitem optimal_weights i ;;
      targets <- portfolio_targets optimal_weights (S i) rest ;;
      Ok ((symbol, w) :: targets)
  end.

(** [self.set_holdings(targets, liquidate)]: the order sink takes the targets;
    with [liquidate] the targets become the whole requested allocation. *)
Definition set_holdings (targets : list PortfolioTarget) (liquidate : bool)
    : M unit :=
  fun s =>
    (Ok tt, with_holdings targets s, [CallSetHoldings targets liquidate]).

(** *** [_trade] (main.py, lines 117-196) *)

(** Everything after the two guards. *)
Definition rebalance (fw : Framework) : M unit :=
  (now <- Alg.gets time ;;
   Alg.modify (with_last_rebalance now) ;;;
   symbols <- Alg.gets selected ;;
   (* Get historical equity curves. *)
   period <- Alg.gets _lookback_period ;;
   history <- Alg.call (CallHistory symbols period)
                (history_close fw symbols period now) ;;
   (* Gather the training data. *)
   training_data_by_symbol <- Alg.lift
                (gather_training_data history symbols []) ;;
   let tradable_symbols := Dict.keys training_data_by_symbol in
   (* Fine-tune the model. *)
   horizon <- Alg.gets _prediction_length ;;
   optimizer <- Alg.gets _optimizer ;;
   model_name <- Alg.gets _model_name ;;
   model_path <- Alg.gets _model_path ;;
   output_dir_path <- _train_chronos fw
                (Dict.values training_data_by_symbol)
                126 horizon optimizer model_name model_path
                (1 / 100000)%R false 3 ;;
   (* Load the fine-tuned model. *)
   device_map <- Alg.gets _device_map ;;
   pipeline <- Alg.call (CallFromPretrained output_dir_path)
                (from_pretrained fw output_dir_path device_map) ;;
   (* Forecast the future equity curves. *)
   context <- Alg.lift (Res.mapM (price_tensor history) tradable_symbols) ;;
   all_forecasts <- Alg.call (CallPredict context horizon)
                (predict fw pipeline context horizon) ;;
   (* Take the median forecast for each asset. *)
   columns <- Alg.lift (median_forecasts all_forecasts 0 tradable_symbols []) ;;
   forecasts_df <- Alg.lift (pd_DataFrame columns) ;;
   (* Find the weights that maximize the forward Sharpe ratio. *)
   optimal_weights <- _optimize_portfolio fw forecasts_df ;;
   (* Rebalance the portfolio. *)
   targets <- Alg.lift (portfolio_targets optimal_weights 0 tradable_symbols) ;;
   set_holdings targets true)%alg.

Definition _trade (fw : Framework) : M unit :=
  (warming <- Alg.gets is_warming_up ;;
   (* Don't rebalance during warm-up. *)
   if warming : bool then Alg.ret tt
   else
     now <- Alg.gets time ;;
     last <- Alg.gets _last_rebalance ;;
     (* Only rebalance on a quarterly basis. *)
     if (now - last <? timedelta_days 80)%Z then Alg.ret tt
     else rebalance fw)%alg.

(** [on_warmup_finished]: trade right after warm-up is done. *)
Definition on_warmup_finished (fw : Framework) : M unit := _trade fw.

(** ** Every run of a rebalance

    [rebalance_run fw s r s' log] lists the ways a rebalance started on [s]
    can end: with the exception of the first step that raises, or with the
    targets handed to the order sink.  [rebalance_runs] shows that the method
    always ends in one of them. *)

Section Runs.

Variable fw : Framework.
Variable s : Algo.

(** The object once the marker is set. *)
Definition marked : Algo := with_last_rebalance (time s) s.

Definition call_history : Call :=
  CallHistory (selected s) (_lookback_period s).

Definition train_config (p : list R) : TrainConfig :=
  {| probability := p;
     context_length := 126;
     prediction_length := _prediction_length s;
     min_past := 64;
     max_steps := 3;
     optim := _optimizer s;
     model_id := _model_name s;
     output_dir := _model_path s;
     learning_rate := (1 / 100000)%R;
     tf32 := false |}.

Definition call_train (d : dict Series) (p : list R) : Call :=
  CallTrain (Dict.values d) (train_config p).

Definition call_predict (ctx : list (list R)) : Call :=
  CallPredict ctx (_prediction_length s).

Definition call_minimize (x0 : list R) (df : DataFrame) : Call :=
  CallMinimize x0 (pct_change_dropna df) (get_interest_rate fw (time s)).

Definition fetched (h : CloseTable) : Prop :=
  history_close fw (selected s) (_lookback_period s) (time s) = Ok h.

Definition gathered (h : CloseTable) (d : dict Series) : Prop :=
  fetched h /\ gather_training_data h (selected s) [] = Ok d.

Definition trained (h : CloseTable) (d : dict Series) (p : list R)
    (out : Path) : Prop :=
  gathered h d /\
  uniform (List.length (Dict.values d)) = Ok p /\
  chronos_train fw (Dict.values d) (train_config p) = Ok out.

Definition loaded (h : CloseTable) (d : dict Series) (p : list R)
    (out : Path) (pl : Pipeline fw) (ctx : list (list R)) : Prop :=
  trained h d p out /\
  from_pretrained fw out (_device_map s) = Ok pl /\
  Res.mapM (price_tensor h) (Dict.keys d) = Ok ctx.

Definition forecast (h : CloseTable) (d : dict Series) (p : list R)
    (out : Path) (pl : Pipeline fw) (ctx : list (list R))
    (all_forecasts : list (list (list R))) (df : DataFrame) : Prop :=
  loaded h d p out pl ctx /\
  predict fw pl ctx (_prediction_length s) = Ok all_forecasts /\
  exists columns,
    median_forecasts all_forecasts 0 (Dict.keys d) [] = Ok columns /\
    pd_DataFrame columns = Ok df.

Definition solver_answer (x0 : list R) (df : DataFrame)
    : result OptimizeResult :=
  minimize fw
    (fun weights =>
       _sharpe_ratio weights (pct_change_dropna df)
                     (get_interest_rate fw (time s)) trading_days_per_year)
    x0
    (repeat (0%R, 1%R) (List.length (pct_change_dropna df)))
    (fun weights => (np_sum weights - 1)%R).

Inductive rebalance_run : result unit -> Algo -> list Call -> Prop :=
| RunHistoryRaises e :
    history_close fw (selected s) (_lookback_period s) (time s) = Raise e ->
    rebalance_run (Raise e) marked [call_history]
| RunGatherRaises h e :
    fetched h ->
    gather_training_data h (selected s) [] = Raise e ->
    rebalance_run (Raise e) marked [call_history]
| RunNoTrainingData h d e :
    gathered h d ->
    uniform (List.length (Dict.values d)) = Raise e ->
    rebalance_run (Raise e) marked [call_history]
| RunTrainRaises h d p e :
    gathered h d ->
    uniform (List.length (Dict.values d)) = Ok p ->
    chronos_train fw (Dict.values d) (train_config p) = Raise e ->
    rebalance_run (Raise e) marked [call_history; call_train d p]
| RunLoadRaises h d p out e :
    trained h d p out ->
    from_pretrained fw out (_device_map s) = Raise e ->
    rebalance_run (Raise e) marked
      [call_history; call_train d p; CallFromPretrained out]
| RunContextRaises h d p out pl e :
    trained h d p out ->
    from_pretrained fw out (_device_map s) = Ok pl ->
    Res.mapM (price_tensor h) (Dict.keys d) = Raise e ->
    rebalance_run (Raise e) marked
      [call_history; call_train d p; CallFromPretrained out]
| RunPredictRaises h d p out pl ctx e :
    loaded h d p out pl ctx ->
    predict fw pl ctx (_prediction_length s) = Raise e ->
    rebalance_run (Raise e) marked
      [call_history; call_train d p; CallFromPretrained out;
       call_predict ctx]
| RunForecastRaises h d p out pl ctx all_forecasts e :
    loaded h d p out pl ctx ->
    predict fw pl ctx (_prediction_length s) = Ok all_forecasts ->
    (columns <- median_forecasts all_forecasts 0 (Dict.keys d) [] ;;
     pd_DataFrame columns) = Raise e ->
    rebalance_run (Raise e) marked
      [call_history; call_train d p; CallFromPretrained out;
       call_predict ctx]
| RunNoAssets h d p out pl ctx all_forecasts df e :
    forecast h d p out pl ctx all_forecasts df ->
    uniform (List.length (pct_change_dropna df)) = Raise e ->
    rebalance_run (Raise e) marked
      [call_history; call_train d p; CallFromPretrained out;
       call_predict ctx]
| RunSolverRaises h d p out pl ctx all_forecasts df x0 e :
    forecast h d p out pl ctx all_forecasts df ->
    uniform (List.length (pct_change_dropna df)) = Ok x0 ->
    solver_answer x0 df = Raise e ->
    rebalance_run (Raise e) marked
      [call_history; call_train d p; CallFromPretrained out;
       call_predict ctx; call_minimize x0 df]
| RunTargetsRaise h d p out pl ctx all_forecasts df x0 res e :
    forecast h d p out pl ctx all_forecasts df ->
    uniform (List.length (pct_change_dropna df)) = Ok x0 ->
    solver_answer x0 df = Ok res ->
    portfolio_targets (x res) 0 (Dict.keys d) = Raise e ->
    rebalance_run (Raise e) marked
      [call_history; call_train d p; CallFromPretrained out;
       call_predict ctx; call_minimize x0 df]
| RunCompletes h d p out pl ctx all_forecasts df x0 res targets :
    forecast h d p out pl ctx all_forecasts df ->
    uniform (List.length (pct_change_dropna df)) = Ok x0 ->
    solver_answer x0 df = Ok res ->
    portfolio_targets (x res) 0 (Dict.keys d) = Ok targets ->
    rebalance_run (Ok tt) (with_holdings targets marked)
      [call_history; call_train d p; CallFromPretrained out;
       call_predict ctx; call_minimize x0 df; CallSetHoldings targets true].

End Runs.

(** ** The specification's vocabulary *)

(** The median of a sample: the middle value of the sorted data, or the mean
    of the two middle values when their number is even. *)
Definition median (a : list R) : R :=
  let arr := np_sort a in
  let n := List.length a in
  if Nat.even n
  then ((nth (n / 2 - 1) arr 0 + nth (n / 2) arr 0) / 2)%R
  else nth (n / 2) arr 0%R.

(** The dot product [a·b]. *)
Fixpoint dot (a b : list R) : R :=
  match a, b with
  | x :: a', y :: b' => (x * y + dot a' b')%R
  | _, _ => 0%R
  end.

(** The quadratic form [w·C·w], the double sum of [w_i * C_ij * w_j]. *)
Fixpoint weighted_row (wi : R) (row w : list R) : R :=
  match row, w with
  | c :: row', wj :: w' => (wi * c * wj + weighted_row wi row' w')%R
  | _, _ => 0%R
  end.

Fixpoint quadratic_form_from (w_rows : list R) (C : list (list R))
    (w : list R) : R :=
  match w_rows, C with
  | wi :: w', row :: C' =>
      (weighted_row wi row w + quadratic_form_from w' C' w)%R
  | _, _ => 0%R
  end.

Definition quadratic_form (w : list R) (C : list (list R)) : R :=
  quadratic_form_from w C w.

(** [mean(R) * 252] and [cov(R) * 252]. *)
Definition annualized_mean (returns : DataFrame) : list R :=
  map (fun m => (m * 252)%R) (DataFrame_mean returns).

Definition annualized_cov (returns : DataFrame) : list (list R) :=
  map (map (fun c => (c * 252)%R)) (DataFrame_cov returns).

(** The negated annualized Sharpe ratio
    [-(w·(mean(R)*252) - r) / sqrt(w·(cov(R)*252)·w)]. *)
Definition negated_annualized_sharpe (w : list R) (returns : DataFrame)
    (r : R) : R :=
  (- ((dot w (annualized_mean returns) - r)
      / sqrt (quadratic_form w (annualized_cov returns))))%R.

(** The specification's reading of a failed solve, that it is surfaced as
    an explicit error: when the solver's answer reports no convergence,
    [_optimize_portfolio] raises. *)
Definition surfaces_solver_failure (fw : Framework) (s : Algo)
    (equity_curves : DataFrame) : Prop :=
  forall x0 res,
    uniform (List.length (pct_change_dropna equity_curves)) = Ok x0 ->
    solver_answer fw s x0 equity_curves = Ok res ->
    success res = false ->
    exists e s' log,
      _optimize_portfolio fw equity_curves s = (Raise e, s', log).

(** ** A small backtest used to exercise the model

    Two assets are selected; [AAA] has twelve daily closes and [BBB] only
    three.  The trainer and the pipeline succeed; the solver stalls: it hands
    back its starting point and reports no convergence. *)

Definition flat_series (from : date) (n : nat) (v : R) : Series :=
  map (fun i => ((from + Z.of_nat i)%Z, Some v)) (seq 0 n).

Definition demo_table : CloseTable :=
  [("AAA"%string, flat_series 0%Z 12 1%R);
   ("BBB"%string, flat_series 0%Z 3 2%R)].

Definition demo_samples : list (list R) := [[1%R; 2%R]; [3%R; 4%R]].

Definition stalled_solver (objective : list R -> result R) (x0 : list R)
    (bounds : list (R * R)) (constraint : list R -> R)
    : result OptimizeResult :=
  Ok {| x := x0; success := false |}.

Definition demo_framework : Framework :=
  {| Pipeline := unit;
     history_close := fun _ _ _ => Ok demo_table;
     get_interest_rate := fun _ => 0%R;
     chronos_train := fun _ cfg => Ok (output_dir cfg);
     from_pretrained := fun _ _ => Ok tt;
     predict := fun _ context _ => Ok (map (fun _ => demo_samples) context);
     minimize := stalled_solver |}.

(** The same backtest with a history feed that is down. *)
Definition offline_framework : Framework :=
  {| Pipeline := unit;
     history_close := fun _ _ _ => Raise (ExternalError "no data"%string);
     get_interest_rate := fun _ => 0%R;
     chronos_train := fun _ cfg => Ok (output_dir cfg);
     from_pretrained := fun _ _ => Ok tt;
     predict := fun _ context _ => Ok (map (fun _ => demo_samples) context);
     minimize := stalled_solver |}.

(** The object [days] days after a rebalance made at day [1000]. *)
Definition demo_algo (days : Z) (warming : bool) : Algo :=
  {| time := timedelta_days (1000 + days);
     is_warming_up := warming;
     selected := ["AAA"%string; "BBB"%string];
     holdings := [("ZZZ"%string, 1%R)];
     _lookback_period := timedelta_days 365;
     _prediction_length := 63;
     _last_rebalance := timedelta_days 1000;
     _device_map := "cpu"%string;
     _optimizer := "adamw_torch"%string;
     _model_name := "amazon/chronos-t5-tiny"%string;
     _model_path := "llm/fine-tune/amazon-chronos-t5-tiny/"%string |}.

(** A forecast table whose only asset never moves: its returns are all zero
    and so is their variance, the degenerate case for the Sharpe ratio. *)
Definition flat_curves : DataFrame := [("AAA"%string, [1%R; 1%R; 1%R])].

(** The training data the backtest gathers: [AAA] only. *)
Definition demo_training : dict Series :=
  [("AAA"%string,
    map (fun d => (d, value_at d (dropna (flat_series 0%Z 12 1%R))))
        (day_range 0%Z 11%Z))].

(** The targets the backtest ends with: everything in [AAA]. *)
Definition demo_targets : list PortfolioTarget :=
  [("AAA"%string, (1 / INR 1)%R)].

(** The object after the backtest's rebalance. *)
Definition demo_rebalanced : Algo :=
  with_holdings demo_targets (marked (demo_algo 100 false)).

(** The forecast table of the backtest. *)
Definition demo_forecasts_df : DataFrame :=
  [("AAA"%string, np_quantile_axis0 demo_samples (1 / 2)%R)].

(** A price series with a weekend gap: closes on day 0 and day 3. *)
Definition gappy_prices : list (date * R) := [(0%Z, 5%R); (3%Z, 7%R)].

Definition gappy_resampled : Series :=
  [(0%Z, Some 5%R); (1%Z, None); (2%Z, None); (3%Z, Some 7%R)].

(** Two assets with two return observations each. *)
Definition two_asset_returns : DataFrame :=
  [("AAA"%string, [1%R; 2%R]); ("BBB"%string, [3%R; 5%R])].

(** Case analysis on the membership of a call in a run's log. *)
Ltac in_log H :=
  unfold call_history, call_train, call_predict, call_minimize in H;
  cbn [In] in H;
  repeat (destruct H as [H|H]; try discriminate H);
  try contradiction.

(** ** Vocabulary for the properties of the whole cycle *)

(** Whether the close column of [symbol] exists and keeps at least ten
    prices once the missing values are dropped: the test of line 135,
    negated. *)
Definition has_enough_history (history : CloseTable) (symbol : Symbol)
    : bool :=
  match column history symbol with
  | Ok col => (10 <=? List.length (dropna col))%nat
  | Raise _ => false
  end.

(** The service a call goes to. *)
Inductive CallKind : Type :=
| KHistory | KTrain | KFromPretrained | KPredict | KMinimize | KSetHoldings.

Definition call_kind (c : Call) : CallKind :=
  match c with
  | CallHistory _ _ => KHistory
  | CallTrain _ _ => KTrain
  | CallFromPretrained _ => KFromPretrained
  | CallPredict _ _ => KPredict
  | CallMinimize _ _ _ => KMinimize
  | CallSetHoldings _ _ => KSetHoldings
  end.

(** The order of the external calls in the body of [_trade]. *)
Definition cycle_protocol : list CallKind :=
  [KHistory; KTrain; KFromPretrained; KPredict; KMinimize; KSetHoldings].

(** [l] is an initial segment of [l']. *)
Definition is_prefix {A} (l l' : list A) : Prop := exists rest, l' = l ++ rest.

(** The framework ending the warm-up: the clock is at [now] and [universe]
    is the current selection. *)
Definition end_warm_up (universe : list Symbol) (now : datetime) (s : Algo)
    : Algo :=
  {| time := now; is_warming_up := false;
     selected := universe; holdings := holdings s;
     _lookback_period := _lookback_period s;
     _prediction_length := _prediction_length s;
     _last_rebalance := _last_rebalance s;
     _device_map := _device_map s; _optimizer := _optimizer s;
     _model_name := _model_name s; _model_path := _model_path s |}.

(** The backtest deployed on 2019-01-01 (day 737059 after [datetime.min]),
    right after its warm-up. *)
Definition demo_deployed : Algo :=
  end_warm_up ["AAA"%string; "BBB"%string] (timedelta_days 737059)
              (initialize (timedelta_days 737028) 1 false).

(** A backtest whose two assets are both too short. *)
Definition short_table : CloseTable :=
  [("AAA"%string, flat_series 0%Z 9 1%R);
   ("BBB"%string, flat_series 0%Z 3 2%R)].

Definition short_framework : Framework :=
  {| Pipeline := unit;
     history_close := fun _ _ _ => Ok short_table;
     get_interest_rate := fun _ => 0%R;
     chronos_train := fun _ cfg => Ok (output_dir cfg);
     from_pretrained := fun _ _ => Ok tt;
     predict := fun _ context _ => Ok (map (fun _ => demo_samples) context);
     minimize := stalled_solver |}.

(** A backtest whose table lacks the column of [BBB]. *)
Definition partial_table : CloseTable :=
  [("AAA"%string, flat_series 0%Z 12 1%R)].

Definition partial_framework : Framework :=
  {| Pipeline := unit;
     history_close := fun _ _ _ => Ok partial_table;
     get_interest_rate := fun _ => 0%R;
     chronos_train := fun _ cfg => Ok (output_dir cfg);
     from_pretrained := fun _ _ => Ok tt;
     predict := fun _ context _ => Ok (map (fun _ => demo_samples) context);
     minimize := stalled_solver |}.

(** The intermediate values of the backtest's cycle. *)
Definition demo_context : list (list R) :=
  [map snd (dropna (flat_series 0%Z 12 1%R))].

Definition demo_all_forecasts : list (list (list R)) := [demo_samples].

(** A backtest whose forecaster returns no tensor at all. *)
Definition mute_framework : Framework :=
  {| Pipeline := unit;
     history_close := fun _ _ _ => Ok demo_table;
     get_interest_rate := fun _ => 0%R;
     chronos_train := fun _ cfg => Ok (output_dir cfg);
     from_pretrained := fun _ _ => Ok tt;
     predict := fun _ _ _ => Ok [];
     minimize := stalled_solver |}.

(** The backtest with [AAA] alone in the selection. *)
Definition single_algo : Algo :=
  end_warm_up ["AAA"%string] (timedelta_days 1100) (demo_algo 100 true).

(** ** A backtest with two tradable assets

    [AAA] closes at 1 and [BBB] at 2 on twelve days; the table lists [BBB]
    first, the selection [AAA] first.  The forecaster gives each series two
    sample paths that repeat its first two prices, and the solver puts a
    quarter in the first asset and the rest in the second, so that positions
    can be told apart at every stage. *)

Definition pair_table : CloseTable :=
  [("BBB"%string, flat_series 0%Z 12 2%R);
   ("AAA"%string, flat_series 0%Z 12 1%R)].

Definition echo_forecaster (context : list (list R))
    : list (list (list R)) :=
  map (fun series => [firstn 2 series; firstn 2 series]) context.

Definition ranked_solver (objective : list R -> result R) (x0 : list R)
    (bounds : list (R * R)) (constraint : list R -> R)
    : result OptimizeResult :=
  Ok {| x := [(1 / 4)%R; (3 / 4)%R]; success := true |}.

Definition pair_framework : Framework :=
  {| Pipeline := unit;
     history_close := fun _ _ _ => Ok pair_table;
     get_interest_rate := fun _ => 0%R;
     chronos_train := fun _ cfg => Ok (output_dir cfg);
     from_pretrained := fun _ _ => Ok tt;
     predict := fun _ context _ => Ok (echo_forecaster context);
     minimize := ranked_solver |}.

Definition pair_training : dict Series :=
  [("AAA"%string,
    map (fun d => (d, value_at d (dropna (flat_series 0%Z 12 1%R))))
        (day_range 0%Z 11%Z));
   ("BBB"%string,
    map (fun d => (d, value_at d (dropna (flat_series 0%Z 12 2%R))))
        (day_range 0%Z 11%Z))].

Definition pair_context : list (list R) :=
  [map snd (dropna (flat_series 0%Z 12 1%R));
   map snd (dropna (flat_series 0%Z 12 2%R))].

Definition pair_forecasts_df : DataFrame :=
  [("AAA"%string,
    np_quantile_axis0 [[1%R; 1%R]; [1%R; 1%R]] (1 / 2)%R);
   ("BBB"%string,
    np_quantile_axis0 [[2%R; 2%R]; [2%R; 2%R]] (1 / 2)%R)].

Definition pair_targets : list PortfolioTarget :=
  [("AAA"%string, (1 / 4)%R); ("BBB"%string, (3 / 4)%R)].

Definition pair_rebalanced : Algo :=
  with_holdings pair_targets (marked (demo_algo 100 false)).

(** A forecast path that stays at zero for two steps. *)
Definition zero_run_curves : DataFrame :=
  [("AAA"%string, [1%R; 0%R; 0%R; 2%R])].

(** The backtest of [demo_framework] with a forecaster whose only sample
    path is that one. *)
Definition zero_run_samples : list (list R) := [[1%R; 0%R; 0%R; 2%R]].

Definition zero_run_framework : Framework :=
  {| Pipeline := unit;
     history_close := fun _ _ _ => Ok demo_table;
     get_interest_rate := fun _ => 0%R;
     chronos_train := fun _ cfg => Ok (output_dir cfg);
     from_pretrained := fun _ _ => Ok tt;
     predict :=
       fun _ context _ => Ok (map (fun _ => zero_run_samples) context);
     minimize := stalled_solver |}.

Definition zero_run_forecasts_df : DataFrame :=
  [("AAA"%string, np_quantile_axis0 zero_run_samples (1 / 2)%R)].

(** * Properties *)

(** ** The two guards of [_trade] *)

Lemma trade_warming_up (fw : Framework) (s : Algo) :
  is_warming_up s = true -> _trade fw s = (Ok tt, s, []).
Proof.
  intros Hw. unfold _trade, Alg.bind, Alg.gets, Alg.ret.
  rewrite Hw. reflexivity.
Qed.

Lemma trade_too_early (fw : Framework) (s : Algo) :
  (time s - _last_rebalance s < timedelta_days 80)%Z ->
  _trade fw s = (Ok tt, s, []).
Proof.
  intros Hlt. apply Z.ltb_lt in Hlt.
  unfold _trade, Alg.bind, Alg.gets, Alg.ret.
  destruct (is_warming_up s); [reflexivity|].
  rewrite Hlt. reflexivity.
Qed.

Lemma trade_due (fw : Framework) (s : Algo) :
  is_warming_up s = false ->
  (timedelta_days 80 <= time s - _last_rebalance s)%Z ->
  _trade fw s = rebalance fw s.
Proof.
  intros Hw Hge. apply Z.ltb_ge in Hge.
  unfold _trade, Alg.bind, Alg.gets, Alg.ret.
  rewrite Hw, Hge.
  destruct (rebalance fw s) as [[r s'] log]. reflexivity.
Qed.

(** ** Every run of a rebalance is one of [rebalance_run] *)

Section RunsCorrect.

Variable fw : Framework.
Variable s : Algo.

Lemma rebalance_runs :
  forall r s' log,
    rebalance fw s = (r, s', log) -> rebalance_run fw s r s' log.
Proof.
  intros r s' log.
  unfold rebalance, _train_chronos, _optimize_portfolio, set_holdings.
  unfold Alg.bind, Alg.gets, Alg.modify, Alg.lift, Alg.call, Alg.ret.
  cbn.
  destruct (history_close fw (selected s) (_lookback_period s) (time s))
    as [h|e] eqn:Hh;
    [|intros [= <- <- <-]; now apply RunHistoryRaises].
  destruct (gather_training_data h (selected s) []) as [d|e] eqn:Hd;
    [|intros [= <- <- <-]; now apply RunGatherRaises with h].
  destruct (uniform (List.length (Dict.values d))) as [p|e] eqn:Hp;
    [|intros [= <- <- <-]; apply RunNoTrainingData with h d;
      [split|]; assumption].
  fold (train_config s p).
  destruct (chronos_train fw (Dict.values d) (train_config s p))
    as [out|e] eqn:Hout;
    [|intros [= <- <- <-]; apply RunTrainRaises with h;
      [split| |]; assumption].
  assert (Htr : trained fw s h d p out) by (repeat split; assumption).
  cbn.
  destruct (from_pretrained fw out (_device_map s)) as [pl|e] eqn:Hpl;
    [|intros [= <- <- <-]; now apply RunLoadRaises with h].
  destruct (Res.mapM (price_tensor h) (Dict.keys d)) as [ctx|e] eqn:Hctx;
    [|intros [= <- <- <-]; now apply RunContextRaises with h pl].
  assert (Hld : loaded fw s h d p out pl ctx) by (repeat split; assumption).
  destruct (predict fw pl ctx (_prediction_length s))
    as [all_forecasts|e] eqn:Haf;
    [|intros [= <- <- <-]; now apply RunPredictRaises with h pl].
  destruct (median_forecasts all_forecasts 0 (Dict.keys d) [])
    as [columns|e] eqn:Hcols;
    [|intros [= <- <- <-];
      apply RunForecastRaises with h pl all_forecasts; try assumption;
      rewrite Hcols; reflexivity].
  destruct (pd_DataFrame columns) as [df|e] eqn:Hdf;
    [|intros [= <- <- <-];
      apply RunForecastRaises with h pl all_forecasts; try assumption;
      rewrite Hcols; exact Hdf].
  assert (Hfc : forecast fw s h d p out pl ctx all_forecasts df)
    by (split; [assumption|split; [assumption|exists columns; now split]]).
  destruct (uniform (List.length (pct_change_dropna df)))
    as [x0|e] eqn:Hx0;
    [|intros [= <- <- <-]; now apply RunNoAssets with h pl all_forecasts df].
  fold (solver_answer fw s x0 df).
  destruct (solver_answer fw s x0 df) as [res|e] eqn:Hres;
    [|intros [= <- <- <-];
      now apply RunSolverRaises with h pl all_forecasts].
  destruct (portfolio_targets (x res) 0 (Dict.keys d))
    as [targets|e] eqn:Htg;
    [|intros [= <- <- <-];
      now apply RunTargetsRaise with h pl all_forecasts res].
  intros [= <- <- <-].
  now apply RunCompletes with h pl all_forecasts res.
Qed.

End RunsCorrect.

(** ** What all runs share *)

Lemma run_starts_with_history fw s r s' log :
  rebalance_run fw s r s' log ->
  exists rest, log = call_history s :: rest.
Proof. destruct 1; eexists; reflexivity. Qed.

Lemma run_sets_marker fw s r s' log :
  rebalance_run fw s r s' log -> _last_rebalance s' = time s.
Proof. destruct 1; reflexivity. Qed.

Lemma run_raises fw s e s' log :
  rebalance_run fw s (Raise e) s' log ->
  s' = marked s /\ existsb is_set_holdings log = false.
Proof.
  intros H. remember (Raise e) as r eqn:Hr.
  destruct H; try discriminate; split; reflexivity.
Qed.

Lemma run_returns fw s u s' log :
  rebalance_run fw s (Ok u) s' log ->
  exists targets before,
    log = before ++ [CallSetHoldings targets true] /\
    existsb is_set_holdings before = false /\
    s' = with_holdings targets (marked s).
Proof.
  intros H. remember (Ok u) as r eqn:Hr.
  destruct H; try discriminate.
  exists targets.
  exists [call_history s; call_train s d p; CallFromPretrained out;
          call_predict s ctx; call_minimize fw s x0 df].
  repeat split.
Qed.

Lemma trade_runs fw s r s' log :
  _trade fw s = (r, s', log) ->
  log = [] \/ rebalance_run fw s r s' log.
Proof.
  intros Hrun.
  destruct (is_warming_up s) eqn:Hw.
  { rewrite (trade_warming_up fw s Hw) in Hrun. left. congruence. }
  destruct (Z.lt_ge_cases (time s - _last_rebalance s) (timedelta_days 80))
    as [Hsoon|Hdue].
  { rewrite (trade_too_early fw s Hsoon) in Hrun. left. congruence. }
  rewrite (trade_due fw s Hw Hdue) in Hrun.
  right. now apply rebalance_runs.
Qed.

(** ** Rebalance scheduling *)



(** ** The marker is advanced before the fallible work *)

(** C10.  In a call of [_trade] that passes the warm-up and spacing checks,
    [_last_rebalance] is the current time in whatever state the call ends:
    when a step raises, be it the very first one (the history fetch), the
    object is left exactly as it was right after the marker was set.  Any
    later tick less than 80 days after that time is then skipped, with no
    external call and no retry. *)
Theorem marker_set_before_fallible_work (fw : Framework) (s : Algo)
    (r : result unit) (s' : Algo) (log : list Call) :
  is_warming_up s = false ->
  (timedelta_days 80 <= time s - _last_rebalance s)%Z ->
  _trade fw s = (r, s', log) ->
  _last_rebalance s' = time s
  /\ (forall e, r = Raise e -> s' = with_last_rebalance (time s) s)
  /\ (forall e,
        history_close fw (selected s) (_lookback_period s) (time s) = Raise e ->
        r = Raise e /\ s' = with_last_rebalance (time s) s)
  /\ (forall fw' later,
        _last_rebalance later = _last_rebalance s' ->
        (time later - time s < timedelta_days 80)%Z ->
        _trade fw' later = (Ok tt, later, [])).
Proof.
  intros Hw Hdue Hrun.
  rewrite (trade_due fw s Hw Hdue) in Hrun.
  apply rebalance_runs in Hrun.
  pose proof (run_sets_marker Hrun) as Hmark.
  split; [exact Hmark|]. split; [|split].
  - intros e ->. exact (proj1 (run_raises Hrun)).
  - intros e He.
    destruct Hrun; unfold forecast, loaded, trained, gathered, fetched in *;
      repeat match goal with H : _ /\ _ |- _ => destruct H end;
      try congruence.
    split; [congruence|reflexivity].
  - intros fw' later Hsame Hsoon.
    apply trade_too_early. rewrite Hsame, Hmark. exact Hsoon.
Qed.

Lemma marker_set_before_fallible_work_witness :
  _last_rebalance (with_last_rebalance (time (demo_algo 100 false))
                                        (demo_algo 100 false))
    = time (demo_algo 100 false)
  /\ _trade demo_framework
       (with_time (timedelta_days 1130)
          (with_last_rebalance (time (demo_algo 100 false))
                               (demo_algo 100 false)))
     = (Ok tt,
        with_time (timedelta_days 1130)
          (with_last_rebalance (time (demo_algo 100 false))
                               (demo_algo 100 false)),
        []).
Proof.
  assert (Hrun : _trade offline_framework (demo_algo 100 false)
                 = (Raise (ExternalError "no data"),
                    with_last_rebalance (time (demo_algo 100 false))
                                        (demo_algo 100 false),
                    [call_history (demo_algo 100 false)]))
    by reflexivity.
  assert (Hw : is_warming_up (demo_algo 100 false) = false) by reflexivity.
  assert (Hdue : (timedelta_days 80
                  <= time (demo_algo 100 false)
                     - _last_rebalance (demo_algo 100 false))%Z)
    by (vm_compute; discriminate).
  destruct (marker_set_before_fallible_work offline_framework _ Hw Hdue Hrun)
    as (Hmark & _ & _ & Hskip).
  split; [exact Hmark|].
  apply Hskip; [reflexivity|vm_compute; reflexivity].
Defined.

(** ** Holdings change only at the final [set_holdings] *)

(** C5.  A call of [_trade] either raises, and then the order sink was never
    called and the holdings are the prior ones; or it returns, and then it
    either skipped the tick or made exactly one [set_holdings] call, the last
    call of the cycle, whose targets are the new holdings. *)
Theorem rebalance_is_atomic (fw : Framework) (s : Algo)
    (r : result unit) (s' : Algo) (log : list Call) :
  _trade fw s = (r, s', log) ->
  match r with
  | Raise _ =>
      holdings s' = holdings s /\ existsb is_set_holdings log = false
  | Ok _ =>
      (s' = s /\ log = [])
      \/ exists targets before,
           log = before ++ [CallSetHoldings targets true] /\
           existsb is_set_holdings before = false /\
           holdings s' = targets
  end.
Proof.
  intros Hrun.
  destruct (is_warming_up s) eqn:Hw.
  { rewrite (trade_warming_up fw s Hw) in Hrun.
    injection Hrun as <- <- <-. left. split; reflexivity. }
  destruct (Z.lt_ge_cases (time s - _last_rebalance s) (timedelta_days 80))
    as [Hsoon|Hdue].
  { rewrite (trade_too_early fw s Hsoon) in Hrun.
    injection Hrun as <- <- <-. left. split; reflexivity. }
  rewrite (trade_due fw s Hw Hdue) in Hrun.
  apply rebalance_runs in Hrun.
  destruct r as [u|e].
  - right.
    destruct (run_returns Hrun) as (targets & before & Hlog & Hnone & ->).
    exists targets, before. repeat split; assumption.
  - destruct (run_raises Hrun) as [-> Hnone]. split; [reflexivity|exact Hnone].
Qed.

Lemma rebalance_is_atomic_witness :
  (exists before,
     snd (_trade demo_framework (demo_algo 100 false))
       = before ++ [CallSetHoldings [("AAA"%string, (1 / INR 1)%R)] true] /\
     existsb is_set_holdings before = false)
  /\ holdings (snd (fst (_trade offline_framework (demo_algo 100 false))))
     = holdings (demo_algo 100 false).
Proof.
  split.
  - pose proof (@rebalance_is_atomic demo_framework (demo_algo 100 false)
                  (Ok tt)
                  (with_holdings [("AAA"%string, (1 / INR 1)%R)]
                                 (marked (demo_algo 100 false)))
                  (snd (_trade demo_framework (demo_algo 100 false)))
                  eq_refl)
      as [[Hskip _]|(targets & before & Hlog & Hnone & Hh)].
    + discriminate (f_equal _last_rebalance Hskip).
    + cbn in Hh. subst targets. exists before. split; assumption.
  - pose proof (@rebalance_is_atomic offline_framework (demo_algo 100 false)
                  (Raise (ExternalError "no data"))
                  (marked (demo_algo 100 false))
                  [call_history (demo_algo 100 false)]
                  eq_refl) as [Hh _].
    exact Hh.
Defined.

(** ** The optimizer and its solver *)

Lemma optimize_portfolio_run (fw : Framework) (s : Algo) (df : DataFrame) :
  _optimize_portfolio fw df s =
  match uniform (List.length (pct_change_dropna df)) with
  | Raise e => (Raise e, s, [])
  | Ok x0 =>
      match solver_answer fw s x0 df with
      | Ok res => (Ok (x res), s, [call_minimize fw s x0 df])
      | Raise e => (Raise e, s, [call_minimize fw s x0 df])
      end
  end.
Proof.
  unfold _optimize_portfolio, solver_answer, call_minimize.
  unfold Alg.bind, Alg.gets, Alg.lift, Alg.call, Alg.ret.
  destruct (uniform (List.length (pct_change_dropna df))) as [x0|e];
    [|reflexivity].
  cbn.
  match goal with
  | |- context [minimize fw ?f ?a ?b ?c] =>
      destruct (minimize fw f a b c); reflexivity
  end.
Qed.

(** C2, as the code has it.  [_optimize_portfolio] starts the solver once,
    from the equal-weight guess, and returns the solver's final point
    [result.x] whatever the convergence flag says: a solve that did not
    converge is not turned into an error, and its point, which may be the
    initial guess, is returned as the weights.  Only an exception raised by
    the solver call itself ends the method, and with it the rebalance.  No
    call of [_trade] starts the solver more than once. *)
Theorem optimizer_returns_solver_point (fw : Framework) (s : Algo)
    (equity_curves : DataFrame) :
  (forall x0,
     uniform (List.length (pct_change_dropna equity_curves)) = Ok x0 ->
     x0 = repeat (1 / INR (List.length equity_curves))%R
                 (List.length equity_curves)
     /\ (forall res,
           solver_answer fw s x0 equity_curves = Ok res ->
           _optimize_portfolio fw equity_curves s
             = (Ok (x res), s, [call_minimize fw s x0 equity_curves]))
     /\ (forall e,
           solver_answer fw s x0 equity_curves = Raise e ->
           _optimize_portfolio fw equity_curves s
             = (Raise e, s, [call_minimize fw s x0 equity_curves])))
  /\ (forall r s' log,
        _trade fw s = (r, s', log) ->
        (List.length (filter is_minimize log) <= 1)%nat).
Proof.
  split.
  - intros x0 Hx0. split; [|split].
    + unfold uniform in Hx0. unfold pct_change_dropna in Hx0.
      rewrite length_map in Hx0.
      destruct (List.length equity_curves =? 0)%nat; [discriminate|].
      now injection Hx0 as <-.
    + intros res Hres. rewrite optimize_portfolio_run, Hx0, Hres. reflexivity.
    + intros e He. rewrite optimize_portfolio_run, Hx0, He. reflexivity.
  - intros r s' log Hrun.
    destruct (trade_runs _ _ Hrun) as [->|Hr]; [cbn; lia|].
    destruct Hr; cbn; lia.
Qed.

Lemma optimizer_returns_solver_point_witness :
  _optimize_portfolio demo_framework flat_curves (demo_algo 100 false)
  = (Ok [(1 / INR 1)%R], demo_algo 100 false,
     [call_minimize demo_framework (demo_algo 100 false)
                    [(1 / INR 1)%R] flat_curves]).
Proof.
  refine (proj1 (proj2 (proj1 (@optimizer_returns_solver_point demo_framework
            (demo_algo 100 false) flat_curves) [(1 / INR 1)%R] _))
            {| x := [(1 / INR 1)%R]; success := false |} _);
    reflexivity.
Defined.

(** C2, as the specification states it, fails: the stalled solver reports no
    convergence, yet [_optimize_portfolio] returns normally, and what it
    returns is the equal-weight initial guess. *)
Lemma solver_failure_is_not_surfaced :
  ~ surfaces_solver_failure demo_framework (demo_algo 100 false)
      flat_curves
  /\ _optimize_portfolio demo_framework flat_curves (demo_algo 100 false)
     = (Ok [(1 / INR 1)%R], demo_algo 100 false,
        [call_minimize demo_framework (demo_algo 100 false)
                       [(1 / INR 1)%R] flat_curves]).
Proof.
  split; [|reflexivity].
  intros Hsurf.
  destruct (Hsurf [(1 / INR 1)%R] {| x := [(1 / INR 1)%R]; success := false |}
              eq_refl eq_refl eq_refl) as (e & s' & log & Hraise).
  discriminate Hraise.
Qed.

(** ** Dictionaries in insertion order *)

Lemma dict_set_new {V} (k : Symbol) (v : V) (d : dict V) :
  ~ In k (Dict.keys d) -> Dict.set k v d = d ++ [(k, v)].
Proof.
  induction d as [|[k' v'] d IH]; intros Hnew; [reflexivity|].
  cbn in *. destruct (String.eqb_spec k k') as [->|Hne].
  - exfalso. apply Hnew. now left.
  - rewrite IH; [reflexivity|]. intros Hin. apply Hnew. now right.
Qed.

Lemma dict_set_keys_old {V} (k : Symbol) (v : V) (d : dict V) :
  In k (Dict.keys d) -> Dict.keys (Dict.set k v d) = Dict.keys d.
Proof.
  induction d as [|[k' v'] d IH]; intros Hin; [contradiction|].
  cbn in *. destruct (String.eqb_spec k k') as [->|Hne]; [reflexivity|].
  cbn. f_equal. apply IH. destruct Hin as [Heq|Hin]; [congruence|exact Hin].
Qed.

Lemma dict_set_keys_in {V} (k k0 : Symbol) (v : V) (d : dict V) :
  In k0 (Dict.keys (Dict.set k v d)) <-> k0 = k \/ In k0 (Dict.keys d).
Proof.
  destruct (in_dec string_dec k (Dict.keys d)) as [Hin|Hnew].
  - rewrite (dict_set_keys_old k v d Hin). split; [now right|].
    intros [->|H]; assumption.
  - rewrite (dict_set_new k v d Hnew). unfold Dict.keys.
    rewrite map_app, in_app_iff. cbn. intuition congruence.
Qed.

Lemma dict_set_nodup {V} (k : Symbol) (v : V) (d : dict V) :
  NoDup (Dict.keys d) -> NoDup (Dict.keys (Dict.set k v d)).
Proof.
  intros Hnd. destruct (in_dec string_dec k (Dict.keys d)) as [Hin|Hnew].
  - now rewrite (dict_set_keys_old k v d Hin).
  - rewrite (dict_set_new k v d Hnew). unfold Dict.keys. rewrite map_app.
    cbn. apply NoDup_app; [exact Hnd|repeat constructor; intros []|].
    intros a Ha [<-|[]]. exact (Hnew Ha).
Qed.

(** ** The tradable symbols *)

Lemma gather_nodup (h : CloseTable) (symbols : list Symbol) :
  forall acc d,
    gather_training_data h symbols acc = Ok d ->
    NoDup (Dict.keys acc) -> NoDup (Dict.keys d).
Proof.
  induction symbols as [|symbol rest IH]; intros acc d Hg Hnd;
    cbn [gather_training_data] in Hg.
  - now injection Hg as <-.
  - destruct (column h symbol) as [col|]; [cbn [Res.bind] in Hg|discriminate].
    destruct (List.length (dropna col) <? 10)%nat.
    + exact (IH _ _ Hg Hnd).
    + destruct (resample_D_asfreq (dropna col)) as [adj|]; [|discriminate].
      cbn [Res.bind] in Hg. apply (IH _ _ Hg). now apply dict_set_nodup.
Qed.

(** A key of the gathered dictionary was there before the loop, or is a
    symbol of the loop whose column holds at least ten valid prices. *)
Lemma gather_keys (h : CloseTable) (symbols : list Symbol) :
  forall acc d,
    gather_training_data h symbols acc = Ok d ->
    forall k, In k (Dict.keys d) ->
      In k (Dict.keys acc)
      \/ (In k symbols /\
          exists col, column h k = Ok col /\
                      (10 <= List.length (dropna col))%nat).
Proof.
  induction symbols as [|symbol rest IH]; intros acc d Hg k Hk;
    cbn [gather_training_data] in Hg.
  - injection Hg as <-. now left.
  - destruct (column h symbol) as [col|] eqn:Hcol;
      [cbn [Res.bind] in Hg|discriminate].
    destruct (List.length (dropna col) <? 10)%nat eqn:Hlen.
    + destruct (IH _ _ Hg k Hk) as [Hacc|(Hin & Hrest)]; [now left|].
      right. split; [now right|exact Hrest].
    + destruct (resample_D_asfreq (dropna col)) as [adj|]; [|discriminate].
      cbn [Res.bind] in Hg.
      destruct (IH _ _ Hg k Hk) as [Hacc|(Hin & Hrest)].
      * apply dict_set_keys_in in Hacc. destruct Hacc as [->|Hacc].
        -- right. split; [now left|]. exists col. split; [exact Hcol|].
           apply Nat.ltb_ge. exact Hlen.
        -- now left.
      * right. split; [now right|exact Hrest].
Qed.

Lemma pd_DataFrame_ok (columns : dict (list R)) (df : DataFrame) :
  pd_DataFrame columns = Ok df -> df = columns.
Proof.
  unfold pd_DataFrame.
  destruct (Dict.values columns) as [|c cols]; [now intros [= <-]|].
  destruct (same_length (List.length c) cols); [now intros [= <-]|discriminate].
Qed.

Lemma pct_change_dropna_keys (df : DataFrame) :
  Dict.keys (pct_change_dropna df) = Dict.keys df.
Proof.
  unfold Dict.keys, pct_change_dropna. rewrite map_map.
  apply map_ext. now intros [label col].
Qed.

(** The forecast columns come out in the order of the symbols, column [j]
    holding the quantile path of tensor [i + j]. *)
Lemma median_forecasts_columns (all_forecasts : list (list (list R))) :
  forall symbols i acc columns,
    median_forecasts all_forecasts i symbols acc = Ok columns ->
    NoDup symbols ->
    (forall k, In k symbols -> ~ In k (Dict.keys acc)) ->
    exists paths,
      columns = acc ++ combine symbols paths /\
      List.length paths = List.length symbols /\
      forall j symbol,
        nth_error symbols j = Some symbol ->
        exists samples,
          nth_error all_forecasts (i + j) = Some samples /\
          nth_error paths j = Some (np_quantile_axis0 samples (1 / 2)%R).
Proof.
  induction symbols as [|symbol rest IH]; intros i acc columns Hm Hnd Hfresh.
  - cbn in Hm. injection Hm as <-. exists []. rewrite app_nil_r.
    repeat split. intros [|j] symbol Hj; discriminate.
  - cbn in Hm. unfold getitem in Hm.
    destruct (nth_error all_forecasts i) as [samples|] eqn:Hi;
      [cbn in Hm|discriminate].
    inversion Hnd as [|? ? Hnotin Hnd']; subst.
    rewrite dict_set_new in Hm by (apply Hfresh; now left).
    destruct (IH _ _ _ Hm Hnd') as (paths & Hcols & Hlen & Hpaths).
    { intros k Hk. unfold Dict.keys. rewrite map_app, in_app_iff. cbn.
      intros [Hacc|[<-|[]]].
      - apply (Hfresh k); [now right|exact Hacc].
      - exact (Hnotin Hk). }
    exists (np_quantile_axis0 samples (1 / 2)%R :: paths).
    split; [|split].
    + rewrite Hcols, <- app_assoc. reflexivity.
    + cbn. now rewrite Hlen.
    + intros [|j] sym Hj; cbn in Hj.
      * injection Hj as <-. exists samples. rewrite Nat.add_0_r. now split.
      * destruct (Hpaths j sym Hj) as (smp & Hs & Hp).
        exists smp. split; [|exact Hp].
        now replace (i + S j)%nat with (S i + j)%nat by lia.
Qed.

(** The targets pair symbol [j] with weight [i + j]. *)
Lemma portfolio_targets_positional (optimal_weights : list R) :
  forall symbols i targets,
    portfolio_targets optimal_weights i symbols = Ok targets ->
    map fst targets = symbols /\
    forall j symbol,
      nth_error symbols j = Some symbol ->
      exists w,
        nth_error optimal_weights (i + j) = Some w /\
        nth_error targets j = Some (symbol, w).
Proof.
  induction symbols as [|symbol rest IH]; intros i targets Ht; cbn in Ht.
  - injection Ht as <-. split; [reflexivity|]. intros [|j] ? Hj; discriminate.
  - unfold getitem in Ht.
    destruct (nth_error optimal_weights i) as [w|] eqn:Hw;
      [cbn in Ht|discriminate].
    destruct (portfolio_targets optimal_weights (S i) rest) as [ts|] eqn:Hts;
      [cbn in Ht|discriminate].
    injection Ht as <-. destruct (IH _ _ Hts) as [Hfst Hpos].
    split; [cbn; now rewrite Hfst|].
    intros [|j] sym Hj; cbn in Hj.
    + injection Hj as <-. exists w. rewrite Nat.add_0_r. now split.
    + destruct (Hpos j sym Hj) as (wj & Hwj & Htj).
      exists wj. split; [|exact Htj].
      now replace (i + S j)%nat with (S i + j)%nat by lia.
Qed.

(** The context series are the price histories of the symbols, in order. *)
Lemma context_positional (h : CloseTable) :
  forall symbols ctx,
    Res.mapM (price_tensor h) symbols = Ok ctx ->
    List.length ctx = List.length symbols /\
    forall j symbol,
      nth_error symbols j = Some symbol ->
      exists col,
        column h symbol = Ok col /\
        nth_error ctx j = Some (map snd (dropna col)).
Proof.
  induction symbols as [|symbol rest IH]; intros ctx Hc; cbn in Hc.
  - injection Hc as <-. split; [reflexivity|]. intros [|j] ? Hj; discriminate.
  - unfold price_tensor at 1 in Hc.
    destruct (column h symbol) as [col|] eqn:Hcol; [cbn in Hc|discriminate].
    destruct (Res.mapM (price_tensor h) rest) as [cs|] eqn:Hcs;
      [cbn in Hc|discriminate].
    injection Hc as <-. destruct (IH _ eq_refl) as [Hlen Hpos].
    split; [cbn; now rewrite Hlen|].
    intros [|j] sym Hj; cbn in Hj.
    + injection Hj as <-. exists col. now split.
    + exact (Hpos j sym Hj).
Qed.

(** ** Which data each external call carries *)

Lemma fetched_unique fw s h h' :
  fetched fw s h -> fetched fw s h' -> h' = h.
Proof. unfold fetched. congruence. Qed.

Lemma gathered_unique fw s h d h' d' :
  gathered fw s h d -> gathered fw s h' d' -> h' = h /\ d' = d.
Proof.
  unfold gathered, fetched. intros [Hh Hd] [Hh' Hd'].
  assert (h' = h) by congruence. subst h'. split; congruence.
Qed.

Lemma forecast_gathered fw s h d p out pl ctx af df :
  forecast fw s h d p out pl ctx af df -> gathered fw s h d.
Proof. unfold forecast, loaded, trained. tauto. Qed.

Lemma forecast_context fw s h d p out pl ctx af df :
  forecast fw s h d p out pl ctx af df ->
  Res.mapM (price_tensor h) (Dict.keys d) = Ok ctx.
Proof. unfold forecast, loaded. tauto. Qed.

Lemma run_train_call fw s r s' log :
  rebalance_run fw s r s' log ->
  forall data cfg, In (CallTrain data cfg) log ->
    exists h d, gathered fw s h d /\ data = Dict.values d.
Proof.
  intros Hrun data cfg Hin.
  destruct Hrun; in_log Hin; injection Hin as <- _; exists h, d;
    (split; [|reflexivity]);
    eauto using forecast_gathered;
    unfold loaded, trained in *; tauto.
Qed.

Lemma run_predict_call fw s r s' log :
  rebalance_run fw s r s' log ->
  forall ctx hz, In (CallPredict ctx hz) log ->
    hz = _prediction_length s /\
    exists h d,
      gathered fw s h d /\ Res.mapM (price_tensor h) (Dict.keys d) = Ok ctx.
Proof.
  intros Hrun c hz Hin.
  destruct Hrun; in_log Hin; injection Hin as <- <-;
    (split; [reflexivity|]); exists h, d;
    eauto using forecast_gathered, forecast_context;
    unfold loaded, trained in *; tauto.
Qed.

Lemma run_minimize_call fw s r s' log :
  rebalance_run fw s r s' log ->
  forall x0 returns rf, In (CallMinimize x0 returns rf) log ->
    exists h d p out pl ctx af df,
      forecast fw s h d p out pl ctx af df /\
      returns = pct_change_dropna df /\
      uniform (List.length returns) = Ok x0.
Proof.
  intros Hrun y0 returns rf Hin.
  destruct Hrun; in_log Hin; injection Hin as <- <- _;
    exists h, d, p, out, pl, ctx, all_forecasts, df;
    (split; [assumption|split; [reflexivity|assumption]]).
Qed.

Lemma run_minimize_after_predict fw s r s' log :
  rebalance_run fw s r s' log ->
  forall x0 returns rf, In (CallMinimize x0 returns rf) log ->
    forall h d p out pl ctx af df,
      forecast fw s h d p out pl ctx af df ->
      In (call_predict s ctx) log.
Proof.
  intros Hrun y0 returns rf Hin h' d' p' out' pl' ctx' af' df' Hf'.
  assert (Hctx' := forecast_context Hf').
  assert (Hg' := forecast_gathered Hf').
  destruct Hrun; in_log Hin;
    match goal with
    | Hf : forecast _ _ _ _ _ _ _ ?c _ _ |- _ =>
        assert (Hctx := forecast_context Hf);
        destruct (gathered_unique (forecast_gathered Hf) Hg') as [-> ->];
        assert (ctx' = c) by congruence; subst ctx'
    end; cbn; tauto.
Qed.

Lemma run_set_holdings_call fw s r s' log :
  rebalance_run fw s r s' log ->
  forall targets liquidate, In (CallSetHoldings targets liquidate) log ->
    exists h d x0 df res,
      gathered fw s h d /\
      In (call_minimize fw s x0 df) log /\
      solver_answer fw s x0 df = Ok res /\
      portfolio_targets (x res) 0 (Dict.keys d) = Ok targets.
Proof.
  intros Hrun tg lq Hin.
  destruct Hrun; in_log Hin. injection Hin as <- _.
  exists h, d, x0, df, res.
  split; [eauto using forecast_gathered|].
  split; [cbn; tauto|]. split; assumption.
Qed.

Lemma combine_keys {V} (symbols : list Symbol) (paths : list V) :
  List.length paths = List.length symbols ->
  Dict.keys (combine symbols paths) = symbols.
Proof.
  revert paths. induction symbols as [|k symbols IH]; intros [|v paths] Hlen;
    try discriminate; [reflexivity|].
  cbn. f_equal. apply IH. now injection Hlen.
Qed.

(** The table handed to the optimizer: one column per tradable symbol, in
    their order, column [j] being the quantile path of forecast tensor [j]. *)
Lemma forecast_table fw s h d p out pl ctx af df :
  forecast fw s h d p out pl ctx af df ->
  NoDup (Dict.keys d) /\
  exists paths,
    df = combine (Dict.keys d) paths /\
    List.length paths = List.length (Dict.keys d) /\
    forall j symbol,
      nth_error (Dict.keys d) j = Some symbol ->
      exists samples,
        nth_error af j = Some samples /\
        nth_error paths j = Some (np_quantile_axis0 samples (1 / 2)%R).
Proof.
  intros Hf.
  assert (Hnd : NoDup (Dict.keys d)).
  { destruct (forecast_gathered Hf) as [_ Hg].
    eapply gather_nodup; [exact Hg|constructor]. }
  split; [exact Hnd|].
  destruct Hf as (_ & _ & columns & Hm & Hdf).
  apply pd_DataFrame_ok in Hdf. subst df.
  destruct (@median_forecasts_columns af (Dict.keys d) 0%nat [] columns Hm Hnd)
    as (paths & -> & Hlen & Hp).
  { intros k _ []. }
  exists paths. repeat split; assumption.
Qed.

Lemma nth_error_combine {A B} (l : list A) (l' : list B) j a b :
  nth_error l j = Some a -> nth_error l' j = Some b ->
  nth_error (combine l l') j = Some (a, b).
Proof.
  revert l l'. induction j as [|j IH]; intros [|x l] [|y l'] Ha Hb;
    try discriminate; cbn in *.
  - congruence.
  - now apply IH.
Qed.

Lemma uniform_length (n : nat) (l : list R) :
  uniform n = Ok l -> List.length l = n.
Proof.
  unfold uniform. destruct (n =? 0)%nat; [discriminate|].
  intros [= <-]. apply repeat_length.
Qed.

(** ** The 0.5 quantile is the median *)

Lemma quantile_half_is_median (a : list R) :
  a <> [] -> quantile_1d a (1 / 2)%R = median a.
Proof.
  intros Hne. unfold quantile_1d, median.
  set (n := List.length a). set (arr := np_sort a).
  assert (Hn : (1 <= n)%nat).
  { subst n. destruct a; [contradiction|cbn; lia]. }
  destruct (Nat.Even_or_Odd n) as [[k Hk]|[k Hk]].
  - (* an even number of values: halfway between the two middle ones *)
    assert (Hvi : ((INR n - 1) * (1 / 2) = IZR (Z.of_nat k - 1) + 1 / 2)%R).
    { rewrite Hk, mult_INR, minus_IZR, <- INR_IZR_INZ. simpl (INR 2). lra. }
    assert (Hip : Int_part ((INR n - 1) * (1 / 2)) = (Z.of_nat k - 1)%Z).
    { symmetry. apply Int_part_spec. rewrite Hvi. lra. }
    rewrite Hip, Hvi.
    replace (Z.to_nat (Z.of_nat k - 1)) with (k - 1)%nat by lia.
    replace (Nat.min (S (k - 1)) (n - 1)) with k by lia.
    replace (Nat.even n) with true
      by (symmetry; apply Nat.even_spec; now exists k).
    replace (n / 2)%nat with k
      by (rewrite Hk, Nat.mul_comm; symmetry; apply Nat.div_mul; lia).
    unfold lerp. destruct (Rlt_dec _ _) as [Hlt|_]; lra.
  - (* an odd number of values: the middle one *)
    assert (Hvi : ((INR n - 1) * (1 / 2) = INR k)%R).
    { rewrite Hk, plus_INR, mult_INR. simpl (INR 2). simpl (INR 1). lra. }
    rewrite Hvi, Int_part_INR, Nat2Z.id, <- INR_IZR_INZ.
    replace (Nat.even n) with false.
    2:{ symmetry. rewrite <- Nat.negb_odd. apply negb_false_iff.
        apply Nat.odd_spec. now exists k. }
    replace (n / 2)%nat with k.
    2:{ rewrite Hk, Nat.mul_comm. symmetry.
        rewrite Nat.div_add_l by lia. cbn. lia. }
    unfold lerp. destruct (Rlt_dec _ _) as [_|Hge]; lra.
Qed.

Lemma np_quantile_axis0_nth (samples : list (list R)) (q : R) (t : nat) :
  (t < n_steps samples)%nat ->
  nth t (np_quantile_axis0 samples q) 0%R
    = quantile_1d (samples_at t samples) q.
Proof.
  intros Ht. unfold np_quantile_axis0.
  rewrite (nth_indep _ 0%R (quantile_1d (samples_at 0 samples) q))
    by (rewrite length_map, length_seq; exact Ht).
  rewrite (map_nth (fun t => quantile_1d (samples_at t samples) q)).
  now rewrite seq_nth.
Qed.

Lemma np_quantile_axis0_length (samples : list (list R)) (q : R) :
  List.length (np_quantile_axis0 samples q) = n_steps samples.
Proof. unfold np_quantile_axis0. now rewrite length_map, length_seq. Qed.

(** ** One list of tradable symbols per cycle *)

(** C4.  Let [d] be the training dictionary of a cycle and
    [tradable_symbols] its keys.  The context series given to [predict] are
    the price histories of these symbols in this order; the return table
    given to the solver has exactly these column labels in this order (and
    the initial guess one entry per symbol); and the targets given to
    [set_holdings] are these symbols in this order, target [i] carrying entry
    [i] of the solver's point, the weight of column [i]. *)
Theorem tradable_symbols_consistent (fw : Framework) (s : Algo)
    (r : result unit) (s' : Algo) (log : list Call)
    (h : CloseTable) (d : dict Series) :
  _trade fw s = (r, s', log) ->
  gathered fw s h d ->
  let tradable_symbols := Dict.keys d in
  NoDup tradable_symbols
  /\ (forall context horizon,
        In (CallPredict context horizon) log ->
        List.length context = List.length tradable_symbols /\
        forall i symbol,
          nth_error tradable_symbols i = Some symbol ->
          exists col,
            column h symbol = Ok col /\
            nth_error context i = Some (map snd (dropna col)))
  /\ (forall x0 returns rf,
        In (CallMinimize x0 returns rf) log ->
        Dict.keys returns = tradable_symbols /\
        List.length x0 = List.length tradable_symbols)
  /\ (forall targets liquidate,
        In (CallSetHoldings targets liquidate) log ->
        map fst targets = tradable_symbols /\
        exists x0 forecasts_df res,
          In (call_minimize fw s x0 forecasts_df) log /\
          solver_answer fw s x0 forecasts_df = Ok res /\
          forall i symbol,
            nth_error tradable_symbols i = Some symbol ->
            exists w,
              nth_error (x res) i = Some w /\
              nth_error targets i = Some (symbol, w)).
Proof.
  intros Hrun Hg tradable_symbols.
  assert (Hnd : NoDup tradable_symbols).
  { destruct Hg as [_ Hg]. eapply gather_nodup; [exact Hg|constructor]. }
  split; [exact Hnd|].
  destruct (trade_runs _ _ Hrun) as [->|Hr].
  { split; [|split]; intros;
      match goal with H : In _ [] |- _ => destruct H end. }
  split; [|split].
  - intros context horizon Hin.
    destruct (run_predict_call Hr _ _ Hin) as (_ & h' & d' & Hg' & Hctx).
    destruct (gathered_unique Hg Hg') as [-> ->].
    exact (context_positional _ _ Hctx).
  - intros x0 returns rf Hin.
    destruct (run_minimize_call Hr _ _ _ Hin)
      as (h' & d' & p & out & pl & ctx & af & df & Hf & -> & Hx0).
    destruct (gathered_unique Hg (forecast_gathered Hf)) as [-> ->].
    destruct (forecast_table Hf) as (_ & paths & -> & Hlen & _).
    assert (Hkeys : Dict.keys (pct_change_dropna (combine (Dict.keys d) paths))
                    = tradable_symbols).
    { rewrite pct_change_dropna_keys. now apply combine_keys. }
    split; [exact Hkeys|].
    rewrite (uniform_length _ Hx0). rewrite <- Hkeys.
    unfold Dict.keys. now rewrite length_map.
  - intros targets liquidate Hin.
    destruct (run_set_holdings_call Hr _ _ Hin)
      as (h' & d' & x0 & df & res & Hg' & Hmin & Hres & Htg).
    destruct (gathered_unique Hg Hg') as [-> ->].
    destruct (portfolio_targets_positional _ _ _ Htg) as [Hfst Hpos].
    split; [exact Hfst|].
    exists x0, df, res.
    split; [exact Hmin|]. split; [exact Hres|exact Hpos].
Qed.

Lemma tradable_symbols_consistent_witness :
  Dict.keys pair_training = ["AAA"%string; "BBB"%string]
  /\ nth_error pair_context 0
     = Some (map snd (dropna (flat_series 0%Z 12 1%R)))
  /\ nth_error pair_context 1
     = Some (map snd (dropna (flat_series 0%Z 12 2%R)))
  /\ Dict.keys (pct_change_dropna pair_forecasts_df)
     = ["AAA"%string; "BBB"%string]
  /\ map fst pair_targets = ["AAA"%string; "BBB"%string]
  /\ nth_error pair_targets 0 = Some ("AAA"%string, (1 / 4)%R)
  /\ nth_error pair_targets 1 = Some ("BBB"%string, (3 / 4)%R).
Proof.
  assert (Hrun : _trade pair_framework (demo_algo 100 false)
                 = (Ok tt, pair_rebalanced,
                    snd (_trade pair_framework (demo_algo 100 false))))
    by reflexivity.
  assert (Hg : gathered pair_framework (demo_algo 100 false)
                        pair_table pair_training)
    by (split; reflexivity).
  assert (Hpredict : In (CallPredict pair_context 63)
                        (snd (_trade pair_framework (demo_algo 100 false))))
    by (do 3 right; left; reflexivity).
  assert (Hminimize : In (CallMinimize [(1 / INR 2)%R; (1 / INR 2)%R]
                            (pct_change_dropna pair_forecasts_df) 0%R)
                         (snd (_trade pair_framework (demo_algo 100 false))))
    by (do 4 right; left; reflexivity).
  assert (Horder : In (CallSetHoldings pair_targets true)
                      (snd (_trade pair_framework (demo_algo 100 false))))
    by (do 5 right; left; reflexivity).
  destruct (@tradable_symbols_consistent _ _ _ _ _ _ _ Hrun Hg)
    as (_ & Hcontext & Hcolumns & Htargets).
  destruct (Hcontext _ _ Hpredict) as [_ Hseries].
  destruct (Hseries 0%nat "AAA"%string eq_refl) as (col0 & Hcol0 & Hctx0).
  destruct (Hseries 1%nat "BBB"%string eq_refl) as (col1 & Hcol1 & Hctx1).
  injection Hcol0 as <-. injection Hcol1 as <-.
  destruct (Hcolumns _ _ _ Hminimize) as [Hlabels _].
  destruct (Htargets _ _ Horder)
    as (Hsymbols & x0 & df & res & _ & Hres & Hpos).
  destruct (Hpos 0%nat "AAA"%string eq_refl) as (w0 & Hw0 & Ht0).
  destruct (Hpos 1%nat "BBB"%string eq_refl) as (w1 & Hw1 & Ht1).
  injection Hres as <-. cbn in Hw0, Hw1.
  injection Hw0 as <-. injection Hw1 as <-.
  split; [reflexivity|]. split; [exact Hctx0|]. split; [exact Hctx1|].
  split; [exact Hlabels|]. split; [exact Hsymbols|].
  split; [exact Ht0|exact Ht1].
Defined.

(** ** Assets with too little history *)

(** C6.  An asset whose close column, with the missing values dropped, has
    fewer than ten observations is not a key of the training dictionary: its
    series is not among the training data, it gets no column in the table
    given to the solver and no portfolio target in that cycle. *)
Theorem short_history_excluded (fw : Framework) (s : Algo)
    (r : result unit) (s' : Algo) (log : list Call)
    (h : CloseTable) (symbol : Symbol) (col : Series) :
  _trade fw s = (r, s', log) ->
  fetched fw s h ->
  column h symbol = Ok col ->
  (List.length (dropna col) < 10)%nat ->
  (forall d,
     gather_training_data h (selected s) [] = Ok d ->
     ~ In symbol (Dict.keys d))
  /\ (forall data cfg,
        In (CallTrain data cfg) log ->
        exists d,
          gather_training_data h (selected s) [] = Ok d /\
          data = Dict.values d /\ ~ In symbol (Dict.keys d))
  /\ (forall context horizon,
        In (CallPredict context horizon) log ->
        exists d,
          gather_training_data h (selected s) [] = Ok d /\
          Res.mapM (price_tensor h) (Dict.keys d) = Ok context /\
          ~ In symbol (Dict.keys d))
  /\ (forall x0 returns rf,
        In (CallMinimize x0 returns rf) log ->
        ~ In symbol (Dict.keys returns))
  /\ (forall targets liquidate,
        In (CallSetHoldings targets liquidate) log ->
        ~ In symbol (map fst targets)).
Proof.
  intros Hrun Hh Hcol Hshort.
  assert (Hout : forall d, gather_training_data h (selected s) [] = Ok d ->
                           ~ In symbol (Dict.keys d)).
  { intros d Hd Hin.
    destruct (gather_keys _ _ _ Hd _ Hin) as [[]|(_ & col' & Hcol' & Hlen)].
    rewrite Hcol in Hcol'. injection Hcol' as <-. lia. }
  split; [exact Hout|].
  destruct (trade_runs _ _ Hrun) as [->|Hr].
  { split; [|split; [|split]]; intros;
      match goal with H : In _ [] |- _ => destruct H end. }
  split; [|split; [|split]].
  - intros data cfg Hin.
    destruct (run_train_call Hr _ _ Hin) as (h' & d & Hg & ->).
    pose proof (fetched_unique Hh (proj1 Hg)) as Hsame. subst h'.
    exists d. destruct Hg as [_ Hd]. auto.
  - intros context horizon Hin.
    destruct (run_predict_call Hr _ _ Hin) as (_ & h' & d & Hg & Hctx).
    pose proof (fetched_unique Hh (proj1 Hg)) as Hsame. subst h'.
    exists d. destruct Hg as [_ Hd]. auto.
  - intros x0 returns rf Hin.
    destruct (run_minimize_call Hr _ _ _ Hin)
      as (h' & d & p & out & pl & ctx & af & df & Hf & -> & _).
    pose proof (forecast_gathered Hf) as Hg.
    pose proof (fetched_unique Hh (proj1 Hg)) as Hsame. subst h'.
    destruct (forecast_table Hf) as (_ & paths & -> & Hlen & _).
    rewrite pct_change_dropna_keys, (combine_keys _ _ Hlen).
    exact (Hout d (proj2 Hg)).
  - intros targets liquidate Hin.
    destruct (run_set_holdings_call Hr _ _ Hin)
      as (h' & d & x0 & df & res & Hg & _ & _ & Htg).
    pose proof (fetched_unique Hh (proj1 Hg)) as Hsame. subst h'.
    rewrite (proj1 (portfolio_targets_positional _ _ _ Htg)).
    exact (Hout d (proj2 Hg)).
Qed.

Lemma short_history_excluded_witness :
  ~ In "BBB"%string (Dict.keys demo_training)
  /\ ~ In "BBB"%string (map fst demo_targets).
Proof.
  assert (Hrun : _trade demo_framework (demo_algo 100 false)
                 = (Ok tt, demo_rebalanced,
                    snd (_trade demo_framework (demo_algo 100 false))))
    by reflexivity.
  assert (Hh : fetched demo_framework (demo_algo 100 false) demo_table)
    by reflexivity.
  assert (Hcol : column demo_table "BBB"%string = Ok (flat_series 0%Z 3 2%R))
    by reflexivity.
  assert (Hshort : (List.length (dropna (flat_series 0%Z 3 2%R)) < 10)%nat)
    by (cbn; lia).
  assert (Hin : In (CallSetHoldings demo_targets true)
                   (snd (_trade demo_framework (demo_algo 100 false))))
    by (do 5 right; left; reflexivity).
  destruct (@short_history_excluded _ _ _ _ _ _ _ _ Hrun Hh Hcol Hshort)
    as (Hkeys & _ & _ & _ & Htargets).
  split.
  - apply Hkeys. reflexivity.
  - exact (Htargets demo_targets true Hin).
Defined.

(** ** The forecast table holds median paths *)

(** C9.  In the table from which the optimizer's returns are computed, the
    column of tradable asset [i] is the reduction of forecast tensor [i]
    along its sample axis: it has one value per future time step, and the
    value at step [t] is the median of the values the sampled paths of that
    asset take at [t]. *)
Theorem forecast_is_median_path (fw : Framework) (s : Algo)
    (r : result unit) (s' : Algo) (log : list Call)
    (x0 : list R) (returns : DataFrame) (rf : R) :
  _trade fw s = (r, s', log) ->
  In (CallMinimize x0 returns rf) log ->
  exists h d (pl : Pipeline fw) context all_forecasts forecasts_df,
    gathered fw s h d /\
    In (CallPredict context (_prediction_length s)) log /\
    predict fw pl context (_prediction_length s) = Ok all_forecasts /\
    returns = pct_change_dropna forecasts_df /\
    forall i symbol,
      nth_error (Dict.keys d) i = Some symbol ->
      exists samples path,
        nth_error all_forecasts i = Some samples /\
        nth_error forecasts_df i = Some (symbol, path) /\
        List.length path = n_steps samples /\
        forall t, (t < n_steps samples)%nat ->
                  nth t path 0%R = median (samples_at t samples).
Proof.
  intros Hrun Hin.
  destruct (trade_runs _ _ Hrun) as [->|Hr]; [destruct Hin|].
  destruct (run_minimize_call Hr _ _ _ Hin)
    as (h & d & p & out & pl & ctx & af & df & Hf & -> & _).
  exists h, d, pl, ctx, af, df.
  split; [exact (forecast_gathered Hf)|].
  split; [exact (run_minimize_after_predict Hr _ _ _ Hin Hf)|].
  split; [exact (proj1 (proj2 Hf))|].
  split; [reflexivity|].
  destruct (forecast_table Hf) as (_ & paths & -> & Hlen & Hpaths).
  intros i symbol Hi.
  destruct (Hpaths i symbol Hi) as (samples & Hs & Hp).
  exists samples, (np_quantile_axis0 samples (1 / 2)%R).
  split; [exact Hs|].
  split; [now apply nth_error_combine|].
  split; [apply np_quantile_axis0_length|].
  intros t Ht. rewrite (np_quantile_axis0_nth _ _ Ht).
  apply quantile_half_is_median.
  destruct samples; [cbn in Ht; lia|discriminate].
Qed.

Lemma forecast_is_median_path_witness :
  exists path,
    List.length path = 2%nat /\
    forall t, (t < 2)%nat ->
              nth t path 0%R = median (samples_at t demo_samples).
Proof.
  assert (Hrun : _trade demo_framework (demo_algo 100 false)
                 = (Ok tt, demo_rebalanced,
                    snd (_trade demo_framework (demo_algo 100 false))))
    by reflexivity.
  assert (Hin : In (CallMinimize [(1 / INR 1)%R]
                      (pct_change_dropna demo_forecasts_df) 0%R)
                   (snd (_trade demo_framework (demo_algo 100 false))))
    by (do 4 right; left; reflexivity).
  assert (Hg : gathered demo_framework (demo_algo 100 false)
                        demo_table demo_training)
    by (split; reflexivity).
  destruct (@forecast_is_median_path _ _ _ _ _ _ _ _ Hrun Hin)
    as (h & d & pl & context & all_forecasts & df
        & Hg' & _ & Hpredict & _ & Hcolumns).
  destruct (gathered_unique Hg Hg') as [-> ->].
  destruct (Hcolumns 0%nat "AAA"%string eq_refl)
    as (samples & path & Hs & _ & Hlen & Hmedian).
  injection Hpredict as <-.
  destruct context as [|c context]; [discriminate Hs|].
  injection Hs as <-.
  exists path. split; [exact Hlen|exact Hmedian].
Defined.

(** ** Resampling to daily frequency *)

Lemma has_duplicates_false (l : list date) :
  has_duplicates l = false <-> NoDup l.
Proof.
  induction l as [|d l IH]; cbn.
  - split; [constructor|reflexivity].
  - rewrite orb_false_iff, IH. split.
    + intros [Hex Hnd]. constructor; [|exact Hnd].
      intros Hin.
      assert (Hsome : existsb (Z.eqb d) l = true).
      { apply existsb_exists. exists d. split; [exact Hin|apply Z.eqb_refl]. }
      congruence.
    + intros Hnd. inversion Hnd as [|? ? Hnotin Hnd']; subst.
      split; [|exact Hnd'].
      destruct (existsb (Z.eqb d) l) eqn:Hex; [|reflexivity].
      apply existsb_exists in Hex. destruct Hex as (y & Hy & Heq).
      apply Z.eqb_eq in Heq. subst y. contradiction.
Qed.

Lemma value_at_some (d : date) (v : R) (s : list (date * R)) :
  value_at d s = Some v -> In (d, v) s.
Proof.
  induction s as [|[d' v'] s IH]; cbn; [discriminate|].
  destruct (Z.eqb_spec d d') as [->|Hne].
  - intros [= ->]. now left.
  - intros H. right. exact (IH H).
Qed.

Lemma value_at_none (d : date) (s : list (date * R)) :
  ~ In d (map fst s) -> value_at d s = None.
Proof.
  induction s as [|[d' v'] s IH]; cbn; [reflexivity|].
  intros Hnotin. destruct (Z.eqb_spec d d') as [->|Hne].
  - exfalso. apply Hnotin. now left.
  - apply IH. intros Hin. apply Hnotin. now right.
Qed.

Lemma value_at_in (d : date) (v : R) (s : list (date * R)) :
  NoDup (map fst s) -> In (d, v) s -> value_at d s = Some v.
Proof.
  induction s as [|[d' v'] s IH]; cbn; [contradiction|].
  intros Hnd [Heq|Hin].
  - injection Heq as -> ->. now rewrite Z.eqb_refl.
  - inversion Hnd as [|? ? Hnotin Hnd']; subst.
    destruct (Z.eqb_spec d d') as [->|Hne].
    + exfalso. apply Hnotin. apply in_map_iff. now exists (d', v).
    + exact (IH Hnd' Hin).
Qed.

Lemma in_day_range (lo hi d : date) :
  In d (day_range lo hi) <-> (lo <= d <= hi)%Z.
Proof.
  unfold day_range. rewrite in_map_iff. split.
  - intros (i & <- & Hi). apply in_seq in Hi. lia.
  - intros Hd. exists (Z.to_nat (d - lo)). split; [lia|].
    apply in_seq. lia.
Qed.

Lemma day_range_nodup (lo hi : date) : NoDup (day_range lo hi).
Proof.
  unfold day_range. apply Injective_map_NoDup; [|apply seq_NoDup].
  intros i j Hij. lia.
Qed.

Lemma first_day_spec (l : list date) :
  forall d0,
    In (first_day d0 l) (d0 :: l) /\
    forall d, In d (d0 :: l) -> (first_day d0 l <= d)%Z.
Proof.
  unfold first_day.
  induction l as [|y l IH]; intros d0; cbn [fold_left].
  - split; [now left|]. intros d [<-|[]]. lia.
  - destruct (IH (Z.min d0 y)) as [Hin Hle]. split.
    + destruct Hin as [Heq|Hin]; [|right; now right].
      rewrite <- Heq. destruct (Z.min_spec d0 y) as [[_ ->]|[_ ->]];
        [now left|right; now left].
    + intros d [<-|[<-|Hd]].
      * specialize (Hle (Z.min d0 y) (or_introl eq_refl)). lia.
      * specialize (Hle (Z.min d0 y) (or_introl eq_refl)). lia.
      * apply Hle. now right.
Qed.

Lemma last_day_spec (l : list date) :
  forall d0,
    In (last_day d0 l) (d0 :: l) /\
    forall d, In d (d0 :: l) -> (d <= last_day d0 l)%Z.
Proof.
  unfold last_day.
  induction l as [|y l IH]; intros d0; cbn [fold_left].
  - split; [now left|]. intros d [<-|[]]. lia.
  - destruct (IH (Z.max d0 y)) as [Hin Hle]. split.
    + destruct Hin as [Heq|Hin]; [|right; now right].
      rewrite <- Heq. destruct (Z.max_spec d0 y) as [[_ ->]|[_ ->]];
        [right; now left|now left].
    + intros d [<-|[<-|Hd]].
      * specialize (Hle (Z.max d0 y) (or_introl eq_refl)). lia.
      * specialize (Hle (Z.max d0 y) (or_introl eq_refl)). lia.
      * apply Hle. now right.
Qed.

(** The shape of a successful resampling: the index has no repeated day and
    the result is the daily grid between its extremes. *)
Lemma resample_ok (s : list (date * R)) (out : Series) :
  resample_D_asfreq s = Ok out ->
  s = [] /\ out = []
  \/ exists lo hi,
       NoDup (map fst s) /\
       In lo (map fst s) /\ In hi (map fst s) /\
       (forall d, In d (map fst s) -> (lo <= d <= hi)%Z) /\
       out = map (fun d => (d, value_at d s)) (day_range lo hi).
Proof.
  unfold resample_D_asfreq.
  destruct (map fst s) as [|d0 ds] eqn:Hidx.
  - intros [= <-]. left. split; [|reflexivity].
    destruct s; [reflexivity|discriminate].
  - destruct (has_duplicates (d0 :: ds)) eqn:Hdup; [discriminate|].
    intros [= <-]. right.
    exists (first_day d0 ds), (last_day d0 ds).
    destruct (first_day_spec ds d0) as [Hlo_in Hlo].
    destruct (last_day_spec ds d0) as [Hhi_in Hhi].
    split; [now apply has_duplicates_false|].
    split; [exact Hlo_in|]. split; [exact Hhi_in|].
    split; [|reflexivity].
    intros d Hd. split; [now apply Hlo|now apply Hhi].
Qed.

(** C7.  Resampling to daily frequency succeeds on an index without repeated
    days, and its result (a) holds every original (day, price) pair
    unchanged, (b) holds the missing marker at every day that lies between
    two days of the index and is not itself in the index, (c) holds no price
    that is not the original price of that same day, so nothing is
    interpolated or filled, and (d) has one row per day. *)
Theorem resample_keeps_prices_and_marks_gaps (s : list (date * R)) :
  (NoDup (map fst s) -> exists out, resample_D_asfreq s = Ok out)
  /\ forall out,
       resample_D_asfreq s = Ok out ->
       (forall d v, In (d, v) s -> In (d, Some v) out)
       /\ (forall lo hi d,
             In lo (map fst s) -> In hi (map fst s) ->
             (lo <= d <= hi)%Z -> ~ In d (map fst s) ->
             In (d, None) out)
       /\ (forall d v, In (d, Some v) out -> In (d, v) s)
       /\ NoDup (map fst out).
Proof.
  split.
  - intros Hnd. unfold resample_D_asfreq.
    destruct (map fst s) as [|d0 ds]; [eexists; reflexivity|].
    apply has_duplicates_false in Hnd. rewrite Hnd. eexists; reflexivity.
  - intros out Hout.
    destruct (resample_ok _ Hout)
      as [[-> ->]|(lo & hi & Hnd & Hlo & Hhi & Hspan & ->)].
    { repeat split; try (intros; contradiction). constructor. }
    split; [|split; [|split]].
    + intros d v Hin. apply in_map_iff. exists d.
      split; [now rewrite (value_at_in _ _ _ Hnd Hin)|].
      apply in_day_range. apply Hspan. apply in_map_iff. now exists (d, v).
    + intros lo' hi' d Hlo' Hhi' Hd Hgap. apply in_map_iff. exists d.
      split; [now rewrite (value_at_none _ _ Hgap)|].
      apply in_day_range.
      pose proof (Hspan lo' Hlo'). pose proof (Hspan hi' Hhi'). lia.
    + intros d v Hin. apply in_map_iff in Hin.
      destruct Hin as (d' & [= -> Hv] & _). now apply value_at_some.
    + rewrite map_map. cbn. rewrite map_id. apply day_range_nodup.
Qed.

Lemma resample_keeps_prices_and_marks_gaps_witness :
  resample_D_asfreq gappy_prices = Ok gappy_resampled
  /\ In (0%Z, Some 5%R) gappy_resampled
  /\ In (1%Z, None) gappy_resampled.
Proof.
  assert (Hout : resample_D_asfreq gappy_prices = Ok gappy_resampled)
    by reflexivity.
  destruct (proj2 (resample_keeps_prices_and_marks_gaps gappy_prices)
                  gappy_resampled Hout) as (Hkeep & Hgap & _ & _).
  split; [exact Hout|]. split.
  - apply Hkeep. cbn. tauto.
  - apply (Hgap 0%Z 3%Z 1%Z); cbn; [tauto|tauto|lia|].
    intros [H|[H|[]]]; discriminate H.
Defined.

(** ** The objective of the optimizer *)

Lemma dot_comm (a b : list R) : dot a b = dot b a.
Proof.
  revert b. induction a as [|x a IH]; intros [|y b]; cbn; try reflexivity.
  rewrite IH. apply f_equal2; [apply Rmult_comm|reflexivity].
Qed.

Lemma np_multiply_ok (a b : list R) :
  List.length a = List.length b ->
  exists p, np_multiply a b = Ok p /\ np_sum p = dot a b.
Proof.
  revert b. induction a as [|u a IH]; intros [|v b] Hlen; try discriminate.
  - exists []. split; reflexivity.
  - injection Hlen as Hlen. destruct (IH b Hlen) as (p & Hp & Hsum).
    exists ((u * v)%R :: p). split.
    + cbn [np_multiply]. rewrite Hp. reflexivity.
    + unfold np_sum in *. cbn [fold_right dot]. now rewrite Hsum.
Qed.

Lemma np_dot_ok (a b : list R) :
  List.length a = List.length b -> np_dot a b = Ok (dot a b).
Proof.
  intros Hlen. unfold np_dot.
  destruct (np_multiply_ok a b Hlen) as (p & -> & <-). reflexivity.
Qed.

Lemma np_dot_matrix_ok (m : list (list R)) (v : list R) :
  (forall row, In row m -> List.length row = List.length v) ->
  np_dot_matrix m v = Ok (map (fun row => dot row v) m).
Proof.
  unfold np_dot_matrix. induction m as [|row m IH]; intros Hrows; cbn.
  - reflexivity.
  - rewrite np_dot_ok by (apply Hrows; now left). cbn.
    rewrite IH by (intros row' Hin; apply Hrows; now right). reflexivity.
Qed.

Lemma weighted_row_dot (wi : R) (row w : list R) :
  weighted_row wi row w = (wi * dot row w)%R.
Proof.
  revert w. induction row as [|c row IH]; intros [|wj w]; cbn; try lra.
  rewrite IH. lra.
Qed.

Lemma dot_rows_quadratic (u : list R) (C : list (list R)) (w : list R) :
  dot u (map (fun row => dot row w) C) = quadratic_form_from u C w.
Proof.
  revert C. induction u as [|ui u IH]; intros [|row C]; cbn; try reflexivity.
  now rewrite IH, weighted_row_dot.
Qed.

(** C8.  For a weight vector with one entry per column of the return table,
    [_sharpe_ratio] with its default of 252 trading days returns the negated
    annualized Sharpe ratio
    [-(w·(mean(R)*252) - r) / sqrt(w·(cov(R)*252)·w)],
    the arithmetic of floats being read as that of the real numbers. *)
Theorem sharpe_ratio_is_negated_annualized_sharpe
    (w : list R) (returns : DataFrame) (r : R) :
  List.length w = List.length returns ->
  _sharpe_ratio w returns r trading_days_per_year
    = Ok (negated_annualized_sharpe w returns r).
Proof.
  intros Hlen.
  unfold _sharpe_ratio, negated_annualized_sharpe, trading_days_per_year.
  fold (annualized_mean returns). fold (annualized_cov returns).
  assert (Hmean : List.length (annualized_mean returns) = List.length w).
  { unfold annualized_mean, DataFrame_mean, Dict.values.
    now rewrite !length_map. }
  destruct (np_multiply_ok _ _ Hmean) as (products & -> & Hsum).
  cbn [Res.bind].
  rewrite np_dot_matrix_ok.
  2:{ intros row Hrow. unfold annualized_cov, DataFrame_cov in Hrow.
      rewrite map_map in Hrow. apply in_map_iff in Hrow.
      destruct Hrow as (a & <- & _).
      unfold Dict.values. now rewrite !length_map. }
  cbn [Res.bind].
  rewrite np_dot_ok.
  2:{ unfold annualized_cov, DataFrame_cov, Dict.values.
      now rewrite !length_map. }
  cbn [Res.bind].
  rewrite Hsum, dot_comm, dot_rows_quadratic. reflexivity.
Qed.

Lemma sharpe_ratio_is_negated_annualized_sharpe_witness :
  _sharpe_ratio [(1 / 2)%R; (1 / 2)%R] two_asset_returns 0%R
                trading_days_per_year
  = Ok (negated_annualized_sharpe [(1 / 2)%R; (1 / 2)%R]
                                  two_asset_returns 0%R).
Proof.
  apply sharpe_ratio_is_negated_annualized_sharpe. reflexivity.
Defined.

(** * Further properties of the cycle *)

(** ** Runs, the other way round *)

(** Each case of [rebalance_run] is the run of [rebalance]. *)
Lemma rebalance_run_complete fw s r s' log :
  rebalance_run fw s r s' log -> rebalance fw s = (r, s', log).
Proof.
  intros Hrun.
  unfold rebalance, _train_chronos, _optimize_portfolio, set_holdings.
  unfold Alg.bind, Alg.gets, Alg.modify, Alg.lift, Alg.call, Alg.ret.
  cbn.
  destruct Hrun;
    unfold forecast, loaded, trained, gathered, fetched in *;
    repeat match goal with
           | H : _ /\ _ |- _ => destruct H
           | H : exists _, _ |- _ => destruct H
           end;
    unfold solver_answer, train_config in *;
    repeat match goal with
           | H : Res.bind ?m _ = _ |- _ =>
               let E := fresh "E" in
               destruct m eqn:E; cbn [Res.bind] in H
           | H : Raise _ = Raise _ |- _ => inversion H; subst; clear H
           end;
    repeat match goal with
           | H : _ = Ok _ |- _ => rewrite H; clear H; cbn
           | H : _ = Raise _ |- _ => rewrite H; clear H; cbn
           end;
    reflexivity.
Qed.

Lemma trade_run_complete fw s r s' log :
  is_warming_up s = false ->
  (timedelta_days 80 <= time s - _last_rebalance s)%Z ->
  rebalance_run fw s r s' log ->
  _trade fw s = (r, s', log).
Proof.
  intros Hw Hdue Hrun. rewrite (trade_due fw s Hw Hdue).
  now apply rebalance_run_complete.
Qed.

(** ** Deployment: the first trade *)

(** X1.  [initialize] leaves the marker at [datetime.min], so the call made
    by [on_warmup_finished] once the warm-up is over passes the spacing guard
    at any date from 80 days after [datetime.min] on and runs the rebalance;
    whatever its outcome, a scheduled [_trade] at that same time then
    returns at the guard without any call, so deployment rebalances once. *)
Theorem first_trade_after_warm_up (fw : Framework) (s : Algo)
    (t0 : datetime) (lookback_years : Z) (cuda : bool) :
  _last_rebalance s = _last_rebalance (initialize t0 lookback_years cuda) ->
  is_warming_up s = false ->
  (timedelta_days 80 <= time s)%Z ->
  on_warmup_finished fw s = rebalance fw s
  /\ forall r s' log,
       on_warmup_finished fw s = (r, s', log) ->
       (exists rest, log = call_history s :: rest) /\
       forall fw', _trade fw' s' = (Ok tt, s', []).
Proof.
  intros Hmin Hw Hlate. cbn in Hmin.
  assert (Hdue : on_warmup_finished fw s = rebalance fw s).
  { unfold on_warmup_finished. apply trade_due; [exact Hw|].
    rewrite Hmin. unfold datetime_min. lia. }
  split; [exact Hdue|].
  intros r s' log Hrun. rewrite Hdue in Hrun.
  apply rebalance_runs in Hrun.
  split; [exact (run_starts_with_history Hrun)|].
  intros fw'. apply trade_too_early.
  rewrite (run_sets_marker Hrun).
  assert (Htime : time s' = time s) by (destruct Hrun; reflexivity).
  rewrite Htime. unfold timedelta_days, microseconds_per_day. lia.
Qed.

Lemma first_trade_after_warm_up_witness :
  on_warmup_finished demo_framework demo_deployed
    = rebalance demo_framework demo_deployed
  /\ _trade offline_framework
       (with_holdings demo_targets (marked demo_deployed))
     = (Ok tt, with_holdings demo_targets (marked demo_deployed), []).
Proof.
  destruct (@first_trade_after_warm_up demo_framework demo_deployed
              (timedelta_days 737028) 1 false eq_refl eq_refl)
    as [Hdue Hafter].
  - vm_compute. discriminate.
  - split; [exact Hdue|].
    refine (proj2 (Hafter (Ok tt)
                     (with_holdings demo_targets (marked demo_deployed))
                     (snd (on_warmup_finished demo_framework demo_deployed))
                     eq_refl) offline_framework).
Defined.

(** ** Cycles that stop while gathering *)

Lemma gather_all_short (h : CloseTable) (symbols : list Symbol) :
  (forall symbol, In symbol symbols ->
     exists col, column h symbol = Ok col /\
                 (List.length (dropna col) < 10)%nat) ->
  forall acc, gather_training_data h symbols acc = Ok acc.
Proof.
  induction symbols as [|symbol rest IH]; intros Hshort acc;
    cbn [gather_training_data]; [reflexivity|].
  destruct (Hshort symbol (or_introl eq_refl)) as (col & -> & Hlen).
  cbn [Res.bind].
  apply Nat.ltb_lt in Hlen. rewrite Hlen.
  apply IH. intros k Hk. apply Hshort. now right.
Qed.

(** X2.  [_train_chronos] divides by the number of training series when it
    builds the default sampling probabilities: with no series it raises
    [ZeroDivisionError] before the trainer is called.  So a cycle in which
    every selected asset has a column with fewer than ten valid prices (an
    empty selection included) ends with that error after the history fetch
    alone: nothing is trained, forecast or ordered, and the marker stays
    advanced. *)
Theorem no_tradable_asset_aborts (fw : Framework) (s : Algo)
    (h : CloseTable) :
  (forall cl pl o m od lr tf ms s0,
     _train_chronos fw [] cl pl o m od lr tf ms s0
       = (Raise ZeroDivisionError, s0, []))
  /\ (is_warming_up s = false ->
      (timedelta_days 80 <= time s - _last_rebalance s)%Z ->
      fetched fw s h ->
      (forall symbol, In symbol (selected s) ->
         exists col, column h symbol = Ok col /\
                     (List.length (dropna col) < 10)%nat) ->
      _trade fw s
        = (Raise ZeroDivisionError, with_last_rebalance (time s) s,
           [call_history s])).
Proof.
  split; [reflexivity|].
  intros Hw Hdue Hh Hshort.
  apply (trade_run_complete Hw Hdue).
  apply RunNoTrainingData with h [].
  - split; [exact Hh|]. now apply gather_all_short.
  - reflexivity.
Qed.

Lemma no_tradable_asset_aborts_witness :
  _trade short_framework (demo_algo 100 false)
  = (Raise ZeroDivisionError,
     with_last_rebalance (time (demo_algo 100 false)) (demo_algo 100 false),
     [call_history (demo_algo 100 false)]).
Proof.
  apply (proj2 (no_tradable_asset_aborts short_framework
                  (demo_algo 100 false) short_table)).
  - reflexivity.
  - vm_compute. discriminate.
  - reflexivity.
  - intros symbol [<-|[<-|[]]].
    + exists (flat_series 0%Z 9 1%R). split; [reflexivity|cbn; lia].
    + exists (flat_series 0%Z 3 2%R). split; [reflexivity|cbn; lia].
Defined.

Lemma gather_raises (h : CloseTable) (symbols : list Symbol) :
  forall acc e,
    gather_training_data h symbols acc = Raise e ->
    e = KeyError \/ e = ValueError.
Proof.
  induction symbols as [|symbol rest IH]; intros acc e Hg;
    cbn [gather_training_data] in Hg; [discriminate|].
  unfold column in Hg.
  destruct (Dict.get symbol h) as [col|]; cbn [Res.bind] in Hg;
    [|left; congruence].
  destruct (List.length (dropna col) <? 10)%nat; [exact (IH _ _ Hg)|].
  unfold resample_D_asfreq in Hg.
  destruct (map fst (dropna col)) as [|d0 ds];
    [cbn [Res.bind] in Hg; exact (IH _ _ Hg)|].
  destruct (has_duplicates (d0 :: ds)); cbn [Res.bind] in Hg;
    [right; congruence|exact (IH _ _ Hg)].
Qed.

Lemma gather_missing_column (h : CloseTable) (symbols : list Symbol)
    (symbol : Symbol) :
  In symbol symbols -> Dict.get symbol h = None ->
  forall acc, exists e, gather_training_data h symbols acc = Raise e.
Proof.
  intros Hin Hnone.
  induction symbols as [|k rest IH]; intros acc; [contradiction|].
  cbn [gather_training_data]. unfold column at 1.
  destruct (string_dec k symbol) as [->|Hne].
  { rewrite Hnone. cbn. eexists; reflexivity. }
  destruct Hin as [Heq|Hin]; [contradiction|].
  destruct (Dict.get k h) as [col|]; cbn [Res.bind];
    [|eexists; reflexivity].
  destruct (List.length (dropna col) <? 10)%nat; [now apply IH|].
  destruct (resample_D_asfreq (dropna col)) as [adj|e]; cbn [Res.bind];
    [now apply IH|eexists; reflexivity].
Qed.

(** X3.  A selected symbol without a column in the close table is not
    skipped like a short one: [history[[symbol]]] raises, and the cycle ends
    in the gathering loop with [KeyError] (or with the [ValueError] of an
    earlier column that cannot be resampled), after the history fetch alone
    and whatever the data of the other symbols. *)
Theorem missing_column_aborts (fw : Framework) (s : Algo) (h : CloseTable)
    (symbol : Symbol) :
  is_warming_up s = false ->
  (timedelta_days 80 <= time s - _last_rebalance s)%Z ->
  fetched fw s h ->
  In symbol (selected s) ->
  Dict.get symbol h = None ->
  exists e,
    (e = KeyError \/ e = ValueError) /\
    _trade fw s
      = (Raise e, with_last_rebalance (time s) s, [call_history s]).
Proof.
  intros Hw Hdue Hh Hin Hnone.
  destruct (gather_missing_column h (selected s) symbol Hin Hnone [])
    as [e He].
  exists e. split; [exact (gather_raises _ _ _ He)|].
  apply (trade_run_complete Hw Hdue).
  now apply RunGatherRaises with h.
Qed.

Lemma missing_column_aborts_witness :
  exists e,
    (e = KeyError \/ e = ValueError) /\
    _trade partial_framework (demo_algo 100 false)
    = (Raise e,
       with_last_rebalance (time (demo_algo 100 false)) (demo_algo 100 false),
       [call_history (demo_algo 100 false)]).
Proof.
  apply (@missing_column_aborts partial_framework (demo_algo 100 false)
           partial_table "BBB"%string).
  - reflexivity.
  - vm_compute. discriminate.
  - reflexivity.
  - cbn. tauto.
  - reflexivity.
Defined.

(** ** Which symbols are tradable, and with which series *)

Lemma dict_get_set {V} (k k' : Symbol) (v : V) (d : dict V) :
  Dict.get k (Dict.set k' v d)
  = if String.eqb k k' then Some v else Dict.get k d.
Proof.
  induction d as [|[k0 v0] d IH]; cbn; [reflexivity|].
  destruct (String.eqb_spec k' k0) as [->|Hne]; cbn.
  - now destruct (String.eqb k k0).
  - rewrite IH. destruct (String.eqb_spec k k0) as [->|Hne'];
      [|reflexivity].
    destruct (String.eqb_spec k0 k') as [Heq|_]; [congruence|reflexivity].
Qed.

Lemma dict_get_in {V} (k : Symbol) (v : V) (d : dict V) :
  NoDup (Dict.keys d) -> In (k, v) d -> Dict.get k d = Some v.
Proof.
  induction d as [|[k0 v0] d IH]; cbn; [contradiction|].
  intros Hnd [Heq|Hin].
  - injection Heq as -> ->. now rewrite String.eqb_refl.
  - inversion Hnd as [|? ? Hnotin Hnd']; subst.
    destruct (String.eqb_spec k k0) as [->|Hne]; [|exact (IH Hnd' Hin)].
    exfalso. apply Hnotin. apply in_map_iff. now exists (k0, v).
Qed.

Lemma has_enough_history_spec (h : CloseTable) (symbol : Symbol) :
  has_enough_history h symbol = true <->
  exists col, column h symbol = Ok col /\
              (10 <= List.length (dropna col))%nat.
Proof.
  unfold has_enough_history. destruct (column h symbol) as [col|e].
  - rewrite Nat.leb_le. split.
    + intros Hlen. now exists col.
    + intros (col' & [= <-] & Hlen). exact Hlen.
  - split; [discriminate|]. intros (col & Hcol & _). discriminate.
Qed.

Lemma gather_keeps_keys (h : CloseTable) (symbols : list Symbol) :
  forall acc d,
    gather_training_data h symbols acc = Ok d ->
    forall k, In k (Dict.keys acc) -> In k (Dict.keys d).
Proof.
  induction symbols as [|symbol rest IH]; intros acc d Hg k Hk;
    cbn [gather_training_data] in Hg.
  - now injection Hg as <-.
  - destruct (column h symbol) as [col|]; [cbn [Res.bind] in Hg|discriminate].
    destruct (List.length (dropna col) <? 10)%nat; [exact (IH _ _ Hg k Hk)|].
    destruct (resample_D_asfreq (dropna col)) as [adj|]; [|discriminate].
    cbn [Res.bind] in Hg. apply (IH _ _ Hg).
    apply dict_set_keys_in. now right.
Qed.

Lemma gather_includes (h : CloseTable) (symbols : list Symbol) :
  forall acc d,
    gather_training_data h symbols acc = Ok d ->
    forall k, In k symbols -> has_enough_history h k = true ->
              In k (Dict.keys d).
Proof.
  induction symbols as [|symbol rest IH]; intros acc d Hg k Hk Henough;
    [contradiction|].
  cbn [gather_training_data] in Hg. unfold has_enough_history in Henough.
  destruct (column h symbol) as [col|] eqn:Hcol;
    [cbn [Res.bind] in Hg|discriminate].
  destruct (List.length (dropna col) <? 10)%nat eqn:Hlen.
  - destruct Hk as [<-|Hk].
    + rewrite Hcol in Henough. apply Nat.leb_le in Henough.
      apply Nat.ltb_lt in Hlen. lia.
    + apply (IH _ _ Hg k Hk). exact Henough.
  - destruct (resample_D_asfreq (dropna col)) as [adj|]; [|discriminate].
    cbn [Res.bind] in Hg. destruct Hk as [<-|Hk].
    + apply (gather_keeps_keys _ _ _ Hg). apply dict_set_keys_in. now left.
    + apply (IH _ _ Hg k Hk). exact Henough.
Qed.

Lemma gather_filter (h : CloseTable) (symbols : list Symbol) :
  forall acc d,
    gather_training_data h symbols acc = Ok d ->
    NoDup symbols ->
    (forall k, In k symbols -> ~ In k (Dict.keys acc)) ->
    Dict.keys d = Dict.keys acc ++ filter (has_enough_history h) symbols.
Proof.
  induction symbols as [|symbol rest IH]; intros acc d Hg Hnd Hfresh;
    cbn [gather_training_data] in Hg.
  - injection Hg as <-. cbn. now rewrite app_nil_r.
  - inversion Hnd as [|? ? Hnotin Hnd']; subst.
    cbn [filter]. unfold has_enough_history at 1.
    destruct (column h symbol) as [col|] eqn:Hcol;
      [cbn [Res.bind] in Hg|discriminate].
    destruct (List.length (dropna col) <? 10)%nat eqn:Hlen.
    + replace (10 <=? List.length (dropna col))%nat with false
        by (symmetry; apply Nat.leb_gt; now apply Nat.ltb_lt).
      apply (IH _ _ Hg Hnd'). intros k Hk. apply Hfresh. now right.
    + replace (10 <=? List.length (dropna col))%nat with true
        by (symmetry; apply Nat.leb_le; now apply Nat.ltb_ge).
      destruct (resample_D_asfreq (dropna col)) as [adj|]; [|discriminate].
      cbn [Res.bind] in Hg.
      rewrite dict_set_new in Hg by (apply Hfresh; now left).
      rewrite (IH _ _ Hg Hnd').
      * unfold Dict.keys. rewrite map_app, <- app_assoc. reflexivity.
      * intros k Hk. unfold Dict.keys. rewrite map_app, in_app_iff. cbn.
        intros [Hacc|[<-|[]]].
        -- apply (Hfresh k); [now right|exact Hacc].
        -- exact (Hnotin Hk).
Qed.

(** X4.  When the gathering loop completes, the tradable symbols are
    exactly the selected symbols whose column keeps at least ten prices
    after the missing values are dropped: every such symbol is tradable, no
    other is, and for a selection without repetition they come in the order
    of the selection. *)
Theorem tradable_symbols_are_the_long_histories (h : CloseTable)
    (symbols : list Symbol) (d : dict Series) :
  gather_training_data h symbols [] = Ok d ->
  (forall symbol,
     In symbol (Dict.keys d) <->
     In symbol symbols /\ has_enough_history h symbol = true)
  /\ (NoDup symbols ->
      Dict.keys d = filter (has_enough_history h) symbols).
Proof.
  intros Hg. split.
  - intros symbol. split.
    + intros Hin.
      destruct (gather_keys _ _ _ Hg _ Hin) as [[]|(Hsel & Henough)].
      split; [exact Hsel|]. now apply has_enough_history_spec.
    + intros [Hsel Henough]. exact (gather_includes _ _ _ Hg _ Hsel Henough).
  - intros Hnd. rewrite (@gather_filter h symbols [] d Hg Hnd); [reflexivity|].
    intros k _ [].
Qed.

Lemma tradable_symbols_are_the_long_histories_witness :
  Dict.keys demo_training
  = filter (has_enough_history demo_table) ["AAA"%string; "BBB"%string].
Proof.
  apply (proj2 (@tradable_symbols_are_the_long_histories demo_table
                  ["AAA"%string; "BBB"%string] demo_training eq_refl)).
  repeat constructor; cbn; intuition discriminate.
Defined.

Lemma gather_frames (h : CloseTable) (symbols : list Symbol) :
  forall acc d,
    gather_training_data h symbols acc = Ok d ->
    forall symbol frame,
      Dict.get symbol d = Some frame ->
      Dict.get symbol acc = Some frame
      \/ exists col,
           column h symbol = Ok col /\
           (10 <= List.length (dropna col))%nat /\
           resample_D_asfreq (dropna col) = Ok frame.
Proof.
  induction symbols as [|k rest IH]; intros acc d Hg symbol frame Hget;
    cbn [gather_training_data] in Hg.
  - injection Hg as <-. now left.
  - destruct (column h k) as [col|] eqn:Hcol;
      [cbn [Res.bind] in Hg|discriminate].
    destruct (List.length (dropna col) <? 10)%nat eqn:Hlen;
      [exact (IH _ _ Hg _ _ Hget)|].
    destruct (resample_D_asfreq (dropna col)) as [adj|] eqn:Hadj;
      [|discriminate].
    cbn [Res.bind] in Hg.
    destruct (IH _ _ Hg _ _ Hget) as [Hacc|Hnew]; [|now right].
    rewrite dict_get_set in Hacc.
    destruct (String.eqb_spec symbol k) as [->|_]; [|now left].
    injection Hacc as <-. right. exists col.
    split; [exact Hcol|]. split; [now apply Nat.ltb_ge|exact Hadj].
Qed.

(** X5.  Every entry of the training dictionary pairs a symbol with the
    daily resampling of that symbol's own close column, missing values
    dropped first, and that column has at least ten prices; the entry is
    what a lookup of the symbol returns. *)
Theorem training_frame_is_resampled_column (h : CloseTable)
    (symbols : list Symbol) (d : dict Series)
    (symbol : Symbol) (frame : Series) :
  gather_training_data h symbols [] = Ok d ->
  In (symbol, frame) d ->
  Dict.get symbol d = Some frame
  /\ exists col,
       column h symbol = Ok col /\
       (10 <= List.length (dropna col))%nat /\
       resample_D_asfreq (dropna col) = Ok frame.
Proof.
  intros Hg Hin.
  assert (Hget : Dict.get symbol d = Some frame).
  { apply dict_get_in; [|exact Hin].
    eapply gather_nodup; [exact Hg|constructor]. }
  split; [exact Hget|].
  destruct (gather_frames _ _ _ Hg _ Hget) as [Hacc|Hnew];
    [discriminate|exact Hnew].
Qed.

Lemma training_frame_is_resampled_column_witness :
  exists col,
    column demo_table "AAA"%string = Ok col /\
    (10 <= List.length (dropna col))%nat /\
    resample_D_asfreq (dropna col)
      = Ok (map (fun d => (d, value_at d (dropna (flat_series 0%Z 12 1%R))))
                (day_range 0%Z 11%Z)).
Proof.
  refine (proj2 (@training_frame_is_resampled_column demo_table
                   ["AAA"%string; "BBB"%string] demo_training
                   "AAA"%string _ eq_refl _)).
  left. reflexivity.
Defined.

(** ** More on the daily resampling *)

Lemma day_range_empty (lo hi : date) :
  (hi < lo)%Z -> day_range lo hi = [].
Proof.
  intros Hlt. unfold day_range.
  replace (Z.to_nat (hi - lo + 1)) with 0%nat by lia. reflexivity.
Qed.

Lemma day_range_cons (lo hi : date) :
  (lo <= hi)%Z -> day_range lo hi = lo :: day_range (lo + 1)%Z hi.
Proof.
  intros Hle. unfold day_range.
  replace (Z.to_nat (hi - lo + 1)) with (S (Z.to_nat (hi - (lo + 1) + 1)))
    by lia.
  cbn [seq map]. f_equal; [lia|].
  rewrite <- seq_shift, map_map. apply map_ext. intros i. lia.
Qed.

Lemma day_range_snoc (lo hi : date) :
  (lo <= hi)%Z -> day_range lo hi = day_range lo (hi - 1)%Z ++ [hi].
Proof.
  intros Hle. unfold day_range.
  replace (Z.to_nat (hi - lo + 1)) with (S (Z.to_nat (hi - 1 - lo + 1)))
    by lia.
  rewrite seq_S, map_app. cbn [map]. do 2 f_equal. lia.
Qed.

Lemma day_range_length (lo hi : date) :
  List.length (day_range lo hi) = Z.to_nat (hi - lo + 1).
Proof. unfold day_range. now rewrite length_map, length_seq. Qed.

Lemma increasing_nodup (l : list date) :
  StronglySorted Z.lt l -> NoDup l.
Proof.
  induction 1 as [|d l Hsorted IH Hall]; constructor; [|exact IH].
  intros Hin. rewrite Forall_forall in Hall. specialize (Hall d Hin). lia.
Qed.

(** Dropping the markers of a grid rebuilt from an increasing series gives
    the series back. *)
Lemma dropna_grid (hi : date) (n : nat) :
  forall lo s,
    Z.to_nat (hi - lo + 1) = n ->
    StronglySorted Z.lt (map fst s) ->
    (forall d, In d (map fst s) -> (lo <= d <= hi)%Z) ->
    dropna (map (fun d => (d, value_at d s)) (day_range lo hi)) = s.
Proof.
  induction n as [|n IH]; intros lo s Hn Hsorted Hspan.
  - rewrite day_range_empty by lia.
    destruct s as [|[d0 v0] s]; [reflexivity|].
    specialize (Hspan d0 (or_introl eq_refl)). lia.
  - rewrite day_range_cons by lia. cbn [map].
    destruct s as [|[d0 v0] rest].
    + cbn [value_at dropna].
      apply (IH (lo + 1)%Z []); [lia|constructor|intros d []].
    + cbn [map fst] in Hsorted. apply StronglySorted_inv in Hsorted.
      destruct Hsorted as [Hrest Hall]. rewrite Forall_forall in Hall.
      pose proof (Hspan d0 (or_introl eq_refl)) as Hd0.
      cbn [value_at]. destruct (Z.eqb_spec lo d0) as [->|Hne].
      * cbn [dropna]. f_equal.
        rewrite (map_ext_in _ (fun d => (d, value_at d rest))).
        -- apply IH; [lia|exact Hrest|].
           intros d Hd. specialize (Hall d Hd).
           specialize (Hspan d (or_intror Hd)). lia.
        -- intros d Hd. apply in_day_range in Hd. cbn [value_at].
           destruct (Z.eqb_spec d d0) as [->|_]; [lia|reflexivity].
      * rewrite (value_at_none lo rest).
        2:{ intros Hin. specialize (Hall lo Hin). lia. }
        cbn [dropna].
        apply (IH (lo + 1)%Z ((d0, v0) :: rest));
          [lia|now constructor; [|apply Forall_forall]|].
        intros d [<-|Hd]; [cbn; lia|].
        specialize (Hall d Hd). specialize (Hspan d (or_intror Hd)). lia.
Qed.

(** X6.  On a series whose days increase, resampling succeeds and only adds
    rows: dropping the missing markers from the resampled frame gives back
    the original series, row for row. *)
Theorem resample_then_dropna_is_identity (s : list (date * R)) :
  StronglySorted Z.lt (map fst s) ->
  exists out, resample_D_asfreq s = Ok out /\ dropna out = s.
Proof.
  intros Hsorted.
  assert (Hok : exists out, resample_D_asfreq s = Ok out).
  { unfold resample_D_asfreq.
    destruct (map fst s) as [|d0 ds] eqn:Hidx; [eexists; reflexivity|].
    rewrite (proj2 (has_duplicates_false (d0 :: ds)))
      by now apply increasing_nodup.
    eexists; reflexivity. }
  destruct Hok as [out Hout]. exists out. split; [exact Hout|].
  destruct (resample_ok _ Hout)
    as [[-> ->]|(lo & hi & _ & _ & _ & Hspan & ->)]; [reflexivity|].
  now apply dropna_grid with (n := Z.to_nat (hi - lo + 1)).
Qed.

Lemma resample_then_dropna_is_identity_witness :
  exists out,
    resample_D_asfreq gappy_prices = Ok out /\ dropna out = gappy_prices.
Proof.
  apply resample_then_dropna_is_identity.
  repeat constructor.
Defined.

(** X7.  The index of a resampled frame is the run of consecutive days from
    the earliest to the latest day of the series, each once and in
    increasing order, so the frame has (latest - earliest + 1) rows; its
    first and its last row carry prices, never the missing marker. *)
Theorem resampled_index_is_the_daily_grid (s : list (date * R))
    (out : Series) :
  resample_D_asfreq s = Ok out ->
  s <> [] ->
  exists lo hi vlo vhi,
    In (lo, vlo) s /\ In (hi, vhi) s /\
    (forall d, In d (map fst s) -> (lo <= d <= hi)%Z) /\
    map fst out = day_range lo hi /\
    List.length out = Z.to_nat (hi - lo + 1) /\
    hd_error out = Some (lo, Some vlo) /\
    last out (lo, None) = (hi, Some vhi).
Proof.
  intros Hout Hne.
  destruct (resample_ok _ Hout)
    as [[-> _]|(lo & hi & Hnd & Hlo & Hhi & Hspan & ->)]; [contradiction|].
  apply in_map_iff in Hlo. destruct Hlo as ([lo' vlo] & Hfst & Hlo).
  cbn in Hfst. subst lo'.
  apply in_map_iff in Hhi. destruct Hhi as ([hi' vhi] & Hfst & Hhi).
  cbn in Hfst. subst hi'.
  assert (Hle : (lo <= hi)%Z).
  { apply (Hspan hi). apply in_map_iff. now exists (hi, vhi). }
  exists lo, hi, vlo, vhi.
  split; [exact Hlo|]. split; [exact Hhi|]. split; [exact Hspan|].
  split; [rewrite map_map; cbn; apply map_id|].
  split; [now rewrite length_map, day_range_length|].
  split.
  - rewrite day_range_cons by exact Hle. cbn.
    now rewrite (value_at_in _ _ _ Hnd Hlo).
  - rewrite day_range_snoc by exact Hle. rewrite map_app. cbn [map].
    rewrite last_last. now rewrite (value_at_in _ _ _ Hnd Hhi).
Qed.

Lemma resampled_index_is_the_daily_grid_witness :
  exists lo hi vlo vhi,
    In (lo, vlo) gappy_prices /\ In (hi, vhi) gappy_prices /\
    (forall d, In d (map fst gappy_prices) -> (lo <= d <= hi)%Z) /\
    map fst gappy_resampled = day_range lo hi /\
    List.length gappy_resampled = Z.to_nat (hi - lo + 1) /\
    hd_error gappy_resampled = Some (lo, Some vlo) /\
    last gappy_resampled (lo, None) = (hi, Some vhi).
Proof.
  apply resampled_index_is_the_daily_grid; [reflexivity|discriminate].
Defined.

(** ** The optimizer's starting point *)

Lemma np_sum_repeat (c : R) (n : nat) :
  np_sum (repeat c n) = (INR n * c)%R.
Proof.
  unfold np_sum. induction n as [|n IH].
  - cbn. lra.
  - cbn [repeat fold_right]. rewrite IH, S_INR. lra.
Qed.

(** X8.  The initial guess [n * [1.0 / n]] has one weight per asset, every
    weight within the bounds [(0, 1)], and it makes the constraint function
    [np.sum(weights) - 1] vanish (over the reals): the solver starts from a
    feasible point. *)
Theorem initial_guess_is_feasible (n : nat) (x0 : list R) :
  uniform n = Ok x0 ->
  List.length x0 = n
  /\ Forall (fun w => (0 <= w <= 1)%R) x0
  /\ (np_sum x0 - 1 = 0)%R.
Proof.
  unfold uniform. destruct (Nat.eqb_spec n 0) as [_|Hn]; [discriminate|].
  intros [= <-].
  assert (Hpos : (1 <= INR n)%R).
  { replace 1%R with (INR 1) by reflexivity. apply le_INR. lia. }
  split; [apply repeat_length|]. split.
  - apply Forall_forall. intros w Hw. apply repeat_spec in Hw. subst w.
    assert (Hinv : (0 < / INR n)%R) by (apply Rinv_0_lt_compat; lra).
    assert (Hone : (INR n * / INR n = 1)%R) by (apply Rinv_r; lra).
    unfold Rdiv. split; nra.
  - rewrite np_sum_repeat. field. lra.
Qed.

Lemma initial_guess_is_feasible_witness :
  List.length [(1 / INR 1)%R] = 1%nat
  /\ Forall (fun w => (0 <= w <= 1)%R) [(1 / INR 1)%R]
  /\ (np_sum [(1 / INR 1)%R] - 1 = 0)%R.
Proof.
  apply (@initial_guess_is_feasible 1 [(1 / INR 1)%R]). reflexivity.
Defined.

(** X9.  [_optimize_portfolio] on a table without columns raises
    [ZeroDivisionError] at the initial guess and never calls the solver.
    Inside [_trade] this cannot happen: once the forecast table of a cycle
    exists it has one column per tradable symbol and at least one, so the
    initial guess is built. *)
Theorem optimizer_has_assets_in_a_cycle (fw : Framework) (s : Algo)
    (h : CloseTable) (d : dict Series) (p : list R) (out : Path)
    (pl : Pipeline fw) (ctx : list (list R))
    (all_forecasts : list (list (list R))) (df : DataFrame) :
  (forall s0, _optimize_portfolio fw [] s0 = (Raise ZeroDivisionError, s0, []))
  /\ (forecast fw s h d p out pl ctx all_forecasts df ->
      exists x0,
        uniform (List.length (pct_change_dropna df)) = Ok x0 /\
        List.length x0 = List.length (Dict.keys d) /\
        (1 <= List.length x0)%nat).
Proof.
  split; [reflexivity|].
  intros Hf.
  destruct (forecast_table Hf) as (_ & paths & -> & Hlen & _).
  assert (Hcols : List.length (pct_change_dropna (combine (Dict.keys d) paths))
                  = List.length (Dict.keys d)).
  { rewrite <- (combine_keys _ _ Hlen) at 2.
    rewrite <- pct_change_dropna_keys. unfold Dict.keys.
    now rewrite length_map. }
  assert (Hsome : (1 <= List.length (Dict.keys d))%nat).
  { destruct Hf as (((_ & Hp & _) & _) & _).
    unfold uniform in Hp. unfold Dict.keys, Dict.values in *.
    rewrite length_map in *.
    destruct (List.length d); [discriminate|lia]. }
  rewrite Hcols. unfold uniform.
  destruct (Nat.eqb_spec (List.length (Dict.keys d)) 0) as [Hz|_]; [lia|].
  eexists. split; [reflexivity|]. rewrite repeat_length. split; [reflexivity|].
  exact Hsome.
Qed.

Lemma demo_forecast :
  forecast demo_framework (demo_algo 100 false) demo_table demo_training
           [(1 / INR 1)%R]
           "llm/fine-tune/amazon-chronos-t5-tiny/"%string tt
           demo_context demo_all_forecasts demo_forecasts_df.
Proof.
  repeat split. exists demo_forecasts_df. split; reflexivity.
Qed.

Lemma optimizer_has_assets_in_a_cycle_witness :
  exists x0,
    uniform (List.length (pct_change_dropna demo_forecasts_df)) = Ok x0 /\
    List.length x0 = List.length (Dict.keys demo_training) /\
    (1 <= List.length x0)%nat.
Proof.
  exact (proj2 (@optimizer_has_assets_in_a_cycle demo_framework
                  (demo_algo 100 false) demo_table demo_training
                  [(1 / INR 1)%R]
                  "llm/fine-tune/amazon-chronos-t5-tiny/"%string tt
                  demo_context demo_all_forecasts demo_forecasts_df)
               demo_forecast).
Defined.

(** ** What a call of [_trade] leaves alone, and the order of its calls *)

(** X10.  [_trade] writes two attributes only.  The clock, the warm-up
    flag, the selection and every setting made by [initialize] are as
    before in whatever state it ends; the marker is either as before or the
    current time; and the holdings differ from the prior ones only when the
    call returns normally. *)
Theorem trade_writes_marker_and_holdings_only (fw : Framework) (s : Algo)
    (r : result unit) (s' : Algo) (log : list Call) :
  _trade fw s = (r, s', log) ->
  time s' = time s
  /\ is_warming_up s' = is_warming_up s
  /\ selected s' = selected s
  /\ _lookback_period s' = _lookback_period s
  /\ _prediction_length s' = _prediction_length s
  /\ _device_map s' = _device_map s
  /\ _optimizer s' = _optimizer s
  /\ _model_name s' = _model_name s
  /\ _model_path s' = _model_path s
  /\ (_last_rebalance s' = _last_rebalance s \/ _last_rebalance s' = time s)
  /\ (holdings s' <> holdings s -> r = Ok tt).
Proof.
  intros Hrun.
  destruct (is_warming_up s) eqn:Hw.
  { rewrite (trade_warming_up fw s Hw) in Hrun. injection Hrun as <- <- <-.
    rewrite Hw. repeat split; try reflexivity. now left. }
  destruct (Z.lt_ge_cases (time s - _last_rebalance s) (timedelta_days 80))
    as [Hsoon|Hdue].
  { rewrite (trade_too_early fw s Hsoon) in Hrun. injection Hrun as <- <- <-.
    rewrite Hw. repeat split; try reflexivity. now left. }
  rewrite (trade_due fw s Hw Hdue) in Hrun.
  apply rebalance_runs in Hrun.
  destruct Hrun; cbn; rewrite ?Hw;
    repeat split; try reflexivity; try (now right);
    intros Hchanged; contradiction.
Qed.

Lemma trade_writes_marker_and_holdings_only_witness :
  time demo_rebalanced = time (demo_algo 100 false)
  /\ selected demo_rebalanced = selected (demo_algo 100 false)
  /\ _model_path demo_rebalanced = _model_path (demo_algo 100 false).
Proof.
  destruct (@trade_writes_marker_and_holdings_only demo_framework
              (demo_algo 100 false) (Ok tt) demo_rebalanced
              (snd (_trade demo_framework (demo_algo 100 false))) eq_refl)
    as (Ht & _ & Hs & _ & _ & _ & _ & _ & Hp & _).
  repeat split; assumption.
Defined.

(** X11.  The external calls of one [_trade] always come in the order
    history, train, load, predict, minimize, set_holdings, each at most once
    and none skipped: the log of kinds is an initial segment of that
    sequence.  In particular no cycle trains twice or orders before it has
    optimized. *)
Theorem calls_follow_the_cycle_protocol (fw : Framework) (s : Algo)
    (r : result unit) (s' : Algo) (log : list Call) :
  _trade fw s = (r, s', log) ->
  is_prefix (map call_kind log) cycle_protocol
  /\ (r = Ok tt -> log = [] \/ map call_kind log = cycle_protocol).
Proof.
  intros Hrun.
  destruct (trade_runs _ _ Hrun) as [->|Hr].
  { split; [now exists cycle_protocol|now left]. }
  destruct Hr; (split; [eexists; reflexivity|]);
    intros Hok; try discriminate Hok. now right.
Qed.

Lemma calls_follow_the_cycle_protocol_witness :
  map call_kind (snd (_trade demo_framework (demo_algo 100 false)))
  = cycle_protocol.
Proof.
  destruct (@calls_follow_the_cycle_protocol demo_framework
              (demo_algo 100 false) (Ok tt) demo_rebalanced
              (snd (_trade demo_framework (demo_algo 100 false))) eq_refl)
    as [_ Hfull].
  destruct (Hfull eq_refl) as [Hnil|Hall]; [discriminate Hnil|exact Hall].
Defined.

(** ** What the trainer, the forecaster and the order sink receive *)

Lemma run_train_call_config fw s r s' log :
  rebalance_run fw s r s' log ->
  forall data cfg, In (CallTrain data cfg) log ->
    exists h d p,
      gathered fw s h d /\
      uniform (List.length (Dict.values d)) = Ok p /\
      data = Dict.values d /\ cfg = train_config s p.
Proof.
  intros Hrun data cfg Hin.
  destruct Hrun; in_log Hin; injection Hin as <- <-; exists h, d, p;
    unfold forecast, loaded, trained in *; tauto.
Qed.

Lemma run_predict_call_loaded fw s r s' log :
  rebalance_run fw s r s' log ->
  forall ctx hz, In (CallPredict ctx hz) log ->
    hz = _prediction_length s /\
    exists h d p out pl, loaded fw s h d p out pl ctx.
Proof.
  intros Hrun c hz Hin.
  destruct Hrun; in_log Hin; injection Hin as <- <-;
    (split; [reflexivity|]); exists h, d, p, out, pl;
    unfold forecast in *; tauto.
Qed.

Lemma run_set_holdings_last fw s r s' log :
  rebalance_run fw s r s' log ->
  forall targets liquidate, In (CallSetHoldings targets liquidate) log ->
    liquidate = true /\ r = Ok tt /\ holdings s' = targets.
Proof.
  intros Hrun tg lq Hin.
  destruct Hrun; in_log Hin. injection Hin as <- <-. repeat split.
Qed.

Lemma run_set_holdings_forecast fw s r s' log :
  rebalance_run fw s r s' log ->
  forall targets liquidate, In (CallSetHoldings targets liquidate) log ->
    exists h d p out pl ctx af df res,
      forecast fw s h d p out pl ctx af df /\
      portfolio_targets (x res) 0 (Dict.keys d) = Ok targets.
Proof.
  intros Hrun tg lq Hin.
  destruct Hrun; in_log Hin. injection Hin as <- _.
  exists h, d, p, out, pl, ctx, all_forecasts, df, res. now split.
Qed.

Lemma mapM_in {A B} (f : A -> result B) (l : list A) :
  forall out,
    Res.mapM f l = Ok out ->
    forall b, In b out -> exists a, In a l /\ f a = Ok b.
Proof.
  induction l as [|a l IH]; intros out Hm b Hb; cbn in Hm.
  - injection Hm as <-. contradiction.
  - destruct (f a) as [b0|] eqn:Hfa; [cbn in Hm|discriminate].
    destruct (Res.mapM f l) as [bs|]; [cbn in Hm|discriminate].
    injection Hm as <-. destruct Hb as [<-|Hb].
    + exists a. split; [now left|exact Hfa].
    + destruct (IH bs eq_refl b Hb) as (a' & Ha' & Hfa').
      exists a'. split; [now right|exact Hfa'].
Qed.

Lemma resample_rows (x : list (date * R)) (frame : Series) :
  resample_D_asfreq x = Ok frame ->
  (List.length x <= List.length frame)%nat.
Proof.
  intros Hout.
  destruct (resample_ok _ Hout)
    as [[-> ->]|(lo & hi & Hnd & _ & _ & Hspan & ->)]; [reflexivity|].
  rewrite length_map, <- (length_map fst x).
  apply NoDup_incl_length; [exact Hnd|].
  intros d Hd. apply in_day_range. now apply Hspan.
Qed.

Lemma uniform_nonempty (n : nat) (p : list R) :
  uniform n = Ok p -> (1 <= n)%nat /\ p = repeat (1 / INR n)%R n.
Proof.
  unfold uniform. destruct (Nat.eqb_spec n 0) as [_|Hn]; [discriminate|].
  intros [= <-]. split; [lia|reflexivity].
Qed.

(** X12.  Whenever the trainer is called it gets at least one series, each
    of at least ten rows, together with one sampling probability [1/N] per
    series and the fixed settings of [_trade]: a context of 126 days, the
    algorithm's prediction length, 3 training steps, a minimum past of 64,
    [tf32] off, and the optimizer, model name and output path chosen in
    [initialize]. *)
Theorem trainer_call_is_well_formed (fw : Framework) (s : Algo)
    (r : result unit) (s' : Algo) (log : list Call)
    (data : list Series) (cfg : TrainConfig) :
  _trade fw s = (r, s', log) ->
  In (CallTrain data cfg) log ->
  data <> []
  /\ Forall (fun frame => (10 <= List.length frame)%nat) data
  /\ probability cfg
     = repeat (1 / INR (List.length data))%R (List.length data)
  /\ context_length cfg = 126%nat
  /\ prediction_length cfg = _prediction_length s
  /\ max_steps cfg = 3%nat
  /\ min_past cfg = 64%nat
  /\ tf32 cfg = false
  /\ optim cfg = _optimizer s
  /\ model_id cfg = _model_name s
  /\ output_dir cfg = _model_path s.
Proof.
  intros Hrun Hin.
  destruct (trade_runs _ _ Hrun) as [->|Hr]; [destruct Hin|].
  destruct (run_train_call_config Hr _ _ Hin)
    as (h & d & p & [_ Hg] & Hp & -> & ->).
  destruct (uniform_nonempty _ Hp) as [Hsome ->].
  split; [|split; [|repeat split]].
  - intros Hnil. rewrite Hnil in Hsome. cbn in Hsome. lia.
  - apply Forall_forall. intros frame Hframe.
    unfold Dict.values in Hframe. apply in_map_iff in Hframe.
    destruct Hframe as ([symbol frame'] & Hsnd & Hentry).
    cbn in Hsnd. subst frame'.
    assert (Hget : Dict.get symbol d = Some frame).
    { apply dict_get_in; [|exact Hentry].
      eapply gather_nodup; [exact Hg|constructor]. }
    destruct (gather_frames _ _ _ Hg _ Hget)
      as [Hacc|(col & _ & Hlen & Hres)]; [discriminate|].
    pose proof (resample_rows _ Hres). lia.
Qed.

Lemma trainer_call_is_well_formed_witness :
  Dict.values demo_training <> []
  /\ Forall (fun frame => (10 <= List.length frame)%nat)
            (Dict.values demo_training).
Proof.
  assert (Hin : In (call_train (demo_algo 100 false) demo_training
                               [(1 / INR 1)%R])
                   (snd (_trade demo_framework (demo_algo 100 false))))
    by (right; left; reflexivity).
  destruct (@trainer_call_is_well_formed demo_framework
              (demo_algo 100 false) (Ok tt) demo_rebalanced
              (snd (_trade demo_framework (demo_algo 100 false)))
              _ _ eq_refl Hin) as (Hne & Hrows & _).
  split; assumption.
Defined.

(** X13.  Whenever the forecaster is called, the horizon is the algorithm's
    prediction length and the batch holds at least one series, each with at
    least ten prices: no short or empty history reaches [predict]. *)
Theorem predict_call_is_well_formed (fw : Framework) (s : Algo)
    (r : result unit) (s' : Algo) (log : list Call)
    (context : list (list R)) (horizon : nat) :
  _trade fw s = (r, s', log) ->
  In (CallPredict context horizon) log ->
  horizon = _prediction_length s
  /\ context <> []
  /\ Forall (fun series => (10 <= List.length series)%nat) context.
Proof.
  intros Hrun Hin.
  destruct (trade_runs _ _ Hrun) as [->|Hr]; [destruct Hin|].
  destruct (run_predict_call_loaded Hr _ _ Hin)
    as (-> & h & d & p & out & pl & (([_ Hg] & Hp & _) & _ & Hctx)).
  split; [reflexivity|].
  destruct (context_positional _ _ Hctx) as [Hlen _].
  destruct (uniform_nonempty _ Hp) as [Hsome _].
  split.
  - intros Hnil. rewrite Hnil in Hlen. cbn in Hlen.
    unfold Dict.keys, Dict.values in *. rewrite length_map in *. lia.
  - apply Forall_forall. intros series Hseries.
    destruct (mapM_in _ _ Hctx _ Hseries) as (symbol & Hsym & Hprices).
    unfold price_tensor in Hprices.
    destruct (gather_keys _ _ _ Hg _ Hsym) as [[]|(_ & col & Hcol & Hten)].
    rewrite Hcol in Hprices. cbn in Hprices. injection Hprices as <-.
    now rewrite length_map.
Qed.

Lemma predict_call_is_well_formed_witness :
  63%nat = _prediction_length (demo_algo 100 false)
  /\ demo_context <> []
  /\ Forall (fun series => (10 <= List.length series)%nat) demo_context.
Proof.
  assert (Hin : In (CallPredict demo_context 63)
                   (snd (_trade demo_framework (demo_algo 100 false))))
    by (do 3 right; left; reflexivity).
  exact (@predict_call_is_well_formed demo_framework
           (demo_algo 100 false) (Ok tt) demo_rebalanced
           (snd (_trade demo_framework (demo_algo 100 false)))
           demo_context 63%nat eq_refl Hin).
Defined.

(** X14.  An order is placed only by a cycle that returns normally, always
    with the liquidation flag set; it names at least one asset, no asset
    twice, and only assets of the current selection, and its targets are
    the holdings the cycle leaves. *)
Theorem order_is_well_formed (fw : Framework) (s : Algo)
    (r : result unit) (s' : Algo) (log : list Call)
    (targets : list PortfolioTarget) (liquidate : bool) :
  _trade fw s = (r, s', log) ->
  In (CallSetHoldings targets liquidate) log ->
  liquidate = true
  /\ r = Ok tt
  /\ holdings s' = targets
  /\ targets <> []
  /\ NoDup (map fst targets)
  /\ (forall symbol, In symbol (map fst targets) -> In symbol (selected s)).
Proof.
  intros Hrun Hin.
  destruct (trade_runs _ _ Hrun) as [->|Hr]; [destruct Hin|].
  destruct (run_set_holdings_last Hr _ _ Hin) as (-> & -> & Hhold).
  destruct (run_set_holdings_forecast Hr _ _ Hin)
    as (h & d & p & out & pl & ctx & af & df & res & Hf & Htg).
  destruct (portfolio_targets_positional _ _ _ Htg) as [Hfst _].
  destruct (forecast_gathered Hf) as [_ Hg].
  split; [reflexivity|]. split; [reflexivity|]. split; [exact Hhold|].
  split; [|split].
  - intros Hnil. rewrite Hnil in Hfst. cbn in Hfst.
    destruct Hf as (((_ & Hp & _) & _) & _).
    destruct (uniform_nonempty _ Hp) as [Hsome _].
    unfold Dict.keys, Dict.values in *. rewrite length_map in Hsome.
    destruct d; [cbn in Hsome; lia|discriminate].
  - rewrite Hfst. eapply gather_nodup; [exact Hg|constructor].
  - intros symbol Hsym. rewrite Hfst in Hsym.
    destruct (gather_keys _ _ _ Hg _ Hsym) as [[]|(Hsel & _)]. exact Hsel.
Qed.

Lemma order_is_well_formed_witness :
  holdings demo_rebalanced = demo_targets
  /\ NoDup (map fst demo_targets)
  /\ (forall symbol, In symbol (map fst demo_targets) ->
                     In symbol (selected (demo_algo 100 false))).
Proof.
  assert (Hin : In (CallSetHoldings demo_targets true)
                   (snd (_trade demo_framework (demo_algo 100 false))))
    by (do 5 right; left; reflexivity).
  destruct (@order_is_well_formed demo_framework
              (demo_algo 100 false) (Ok tt) demo_rebalanced
              (snd (_trade demo_framework (demo_algo 100 false)))
              demo_targets true eq_refl Hin)
    as (_ & _ & Hhold & _ & Hnd & Hsel).
  repeat split; assumption.
Defined.

(** ** Answers of the wrong size *)

Lemma skipn_nth_error {A} (l : list A) :
  forall i v, nth_error l i = Some v -> skipn i l = v :: skipn (S i) l.
Proof.
  induction l as [|a l IH]; intros [|i] v Hv; try discriminate.
  - cbn in *. congruence.
  - cbn in Hv. cbn [skipn]. rewrite (IH i v Hv). reflexivity.
Qed.

Lemma portfolio_targets_enough (w : list R) (symbols : list Symbol) :
  forall i,
    (i + List.length symbols <= List.length w)%nat ->
    portfolio_targets w i symbols = Ok (combine symbols (skipn i w)).
Proof.
  induction symbols as [|symbol rest IH]; intros i Hlen;
    cbn [portfolio_targets]; [reflexivity|].
  cbn [List.length] in Hlen. unfold getitem.
  destruct (nth_error w i) as [v|] eqn:Hv.
  - cbn [Res.bind]. rewrite IH by lia. cbn [Res.bind].
    now rewrite (skipn_nth_error _ _ Hv).
  - apply nth_error_None in Hv. lia.
Qed.

Lemma portfolio_targets_short (w : list R) (symbols : list Symbol) :
  forall i,
    (i <= List.length w)%nat ->
    (List.length w < i + List.length symbols)%nat ->
    portfolio_targets w i symbols = Raise IndexError.
Proof.
  induction symbols as [|symbol rest IH]; intros i Hi Hlen;
    cbn [List.length] in Hlen; cbn [portfolio_targets]; [lia|].
  unfold getitem. destruct (nth_error w i) as [v|] eqn:Hv; [|reflexivity].
  assert (Hlt : (i < List.length w)%nat)
    by (apply nth_error_Some; congruence).
  cbn [Res.bind]. rewrite IH by lia. reflexivity.
Qed.

Lemma median_forecasts_short (af : list (list (list R)))
    (symbols : list Symbol) :
  forall i acc,
    (i <= List.length af)%nat ->
    (List.length af < i + List.length symbols)%nat ->
    median_forecasts af i symbols acc = Raise IndexError.
Proof.
  induction symbols as [|symbol rest IH]; intros i acc Hi Hlen;
    cbn [List.length] in Hlen; cbn [median_forecasts]; [lia|].
  unfold getitem. destruct (nth_error af i) as [v|] eqn:Hv; [|reflexivity].
  assert (Hlt : (i < List.length af)%nat)
    by (apply nth_error_Some; congruence).
  cbn [Res.bind]. apply IH; lia.
Qed.

(** X15.  The targets are built by indexing the solver's point with the
    positions of the tradable symbols.  A point with fewer entries than
    there are tradable symbols ends the cycle with [IndexError] after the
    solver call, without any order; a point with at least as many completes
    the cycle, its surplus entries being ignored: target [i] is symbol [i]
    with entry [i]. *)
Theorem solver_point_length_decides (fw : Framework) (s : Algo)
    (h : CloseTable) (d : dict Series) (p : list R) (out : Path)
    (pl : Pipeline fw) (ctx : list (list R))
    (all_forecasts : list (list (list R))) (df : DataFrame)
    (x0 : list R) (res : OptimizeResult) :
  is_warming_up s = false ->
  (timedelta_days 80 <= time s - _last_rebalance s)%Z ->
  forecast fw s h d p out pl ctx all_forecasts df ->
  uniform (List.length (pct_change_dropna df)) = Ok x0 ->
  solver_answer fw s x0 df = Ok res ->
  ((List.length (x res) < List.length (Dict.keys d))%nat ->
   _trade fw s
     = (Raise IndexError, with_last_rebalance (time s) s,
        [call_history s; call_train s d p; CallFromPretrained out;
         call_predict s ctx; call_minimize fw s x0 df]))
  /\ ((List.length (Dict.keys d) <= List.length (x res))%nat ->
      _trade fw s
        = (Ok tt,
           with_holdings (combine (Dict.keys d) (x res))
                         (with_last_rebalance (time s) s),
           [call_history s; call_train s d p; CallFromPretrained out;
            call_predict s ctx; call_minimize fw s x0 df;
            CallSetHoldings (combine (Dict.keys d) (x res)) true])).
Proof.
  intros Hw Hdue Hf Hx0 Hres. split; intros Hlen;
    apply (trade_run_complete Hw Hdue).
  - apply RunTargetsRaise with h pl all_forecasts res; try assumption.
    apply portfolio_targets_short; lia.
  - apply RunCompletes with h pl all_forecasts res; try assumption.
    now rewrite portfolio_targets_enough by (cbn; lia).
Qed.

Lemma solver_point_length_decides_witness :
  _trade demo_framework (demo_algo 100 false)
  = (Ok tt, demo_rebalanced,
     [call_history (demo_algo 100 false);
      call_train (demo_algo 100 false) demo_training [(1 / INR 1)%R];
      CallFromPretrained "llm/fine-tune/amazon-chronos-t5-tiny/"%string;
      call_predict (demo_algo 100 false) demo_context;
      call_minimize demo_framework (demo_algo 100 false)
                    [(1 / INR 1)%R] demo_forecasts_df;
      CallSetHoldings demo_targets true]).
Proof.
  refine (proj2 (@solver_point_length_decides demo_framework
                   (demo_algo 100 false) demo_table demo_training
                   [(1 / INR 1)%R]
                   "llm/fine-tune/amazon-chronos-t5-tiny/"%string tt
                   demo_context demo_all_forecasts demo_forecasts_df
                   [(1 / INR 1)%R]
                   {| x := [(1 / INR 1)%R]; success := false |}
                   eq_refl _ demo_forecast eq_refl eq_refl) _).
  - vm_compute. discriminate.
  - cbn. lia.
Defined.

(** X16.  The forecast columns are built by indexing the forecaster's answer
    with the positions of the tradable symbols.  An answer with fewer
    tensors than series in the batch ends the cycle with [IndexError] after
    the predict call: the solver is not started and no order is placed. *)
Theorem too_few_forecasts_abort (fw : Framework) (s : Algo)
    (h : CloseTable) (d : dict Series) (p : list R) (out : Path)
    (pl : Pipeline fw) (ctx : list (list R))
    (all_forecasts : list (list (list R))) :
  is_warming_up s = false ->
  (timedelta_days 80 <= time s - _last_rebalance s)%Z ->
  loaded fw s h d p out pl ctx ->
  predict fw pl ctx (_prediction_length s) = Ok all_forecasts ->
  (List.length all_forecasts < List.length ctx)%nat ->
  _trade fw s
    = (Raise IndexError, with_last_rebalance (time s) s,
       [call_history s; call_train s d p; CallFromPretrained out;
        call_predict s ctx]).
Proof.
  intros Hw Hdue Hld Haf Hlen.
  apply (trade_run_complete Hw Hdue).
  apply RunForecastRaises with h pl all_forecasts; try assumption.
  destruct Hld as (_ & _ & Hctx).
  destruct (context_positional _ _ Hctx) as [Hsame _].
  rewrite median_forecasts_short by (cbn; lia). reflexivity.
Qed.

Lemma too_few_forecasts_abort_witness :
  _trade mute_framework (demo_algo 100 false)
  = (Raise IndexError,
     with_last_rebalance (time (demo_algo 100 false)) (demo_algo 100 false),
     [call_history (demo_algo 100 false);
      call_train (demo_algo 100 false) demo_training [(1 / INR 1)%R];
      CallFromPretrained "llm/fine-tune/amazon-chronos-t5-tiny/"%string;
      call_predict (demo_algo 100 false) demo_context]).
Proof.
  refine (@too_few_forecasts_abort mute_framework (demo_algo 100 false)
            demo_table demo_training [(1 / INR 1)%R]
            "llm/fine-tune/amazon-chronos-t5-tiny/"%string tt
            demo_context [] eq_refl _ _ eq_refl _).
  - vm_compute. discriminate.
  - repeat split.
  - cbn. lia.
Defined.

(** ** Rectangular tables *)

Lemma same_length_spec (n : nat) (cols : list (list R)) :
  same_length n cols = true <->
  forall c, In c cols -> List.length c = n.
Proof.
  induction cols as [|c cols IH]; cbn.
  - split; [intros _ c []|reflexivity].
  - rewrite andb_true_iff, Nat.eqb_eq, IH. split.
    + intros [Hc Hrest] c' [<-|Hin]; [exact Hc|now apply Hrest].
    + intros Hall. split; [apply Hall; now left|].
      intros c' Hin. apply Hall. now right.
Qed.

Lemma pd_DataFrame_rectangular (columns : dict (list R)) (df : DataFrame) :
  pd_DataFrame columns = Ok df ->
  exists n, forall c, In c (Dict.values df) -> List.length c = n.
Proof.
  unfold pd_DataFrame.
  destruct (Dict.values columns) as [|c cols] eqn:Hvals.
  - intros [= <-]. exists 0%nat. rewrite Hvals. intros c [].
  - destruct (same_length (List.length c) cols) eqn:Hsame; [|discriminate].
    intros [= <-]. exists (List.length c). rewrite Hvals.
    intros c' [<-|Hin]; [reflexivity|].
    now apply (proj1 (same_length_spec _ _) Hsame).
Qed.

(** ** The median path *)

Lemma insert_sorted_in (x y : R) (l : list R) :
  In x (insert_sorted y l) <-> x = y \/ In x l.
Proof.
  induction l as [|z l IH]; cbn.
  - intuition.
  - destruct (Rle_dec y z); cbn; [intuition|]. rewrite IH. intuition.
Qed.

Lemma np_sort_cons (x : R) (a : list R) :
  np_sort (x :: a) = insert_sorted x (np_sort a).
Proof. reflexivity. Qed.

Lemma np_sort_in (x : R) (a : list R) : In x (np_sort a) <-> In x a.
Proof.
  induction a as [|y a IH]; [reflexivity|].
  rewrite np_sort_cons, insert_sorted_in, IH. cbn. intuition.
Qed.

Lemma insert_sorted_length (y : R) (l : list R) :
  List.length (insert_sorted y l) = S (List.length l).
Proof.
  induction l as [|z l IH]; cbn; [reflexivity|].
  destruct (Rle_dec y z); cbn; [reflexivity|now rewrite IH].
Qed.

Lemma np_sort_length (a : list R) :
  List.length (np_sort a) = List.length a.
Proof.
  induction a as [|y a IH]; [reflexivity|].
  rewrite np_sort_cons, insert_sorted_length, IH. reflexivity.
Qed.

Lemma sorted_entry_in (a : list R) (k : nat) :
  (k < List.length a)%nat -> In (nth k (np_sort a) 0%R) a.
Proof.
  intros Hk. apply np_sort_in. apply nth_In. now rewrite np_sort_length.
Qed.

Lemma median_within (a : list R) :
  a <> [] ->
  exists lo hi, In lo a /\ In hi a /\ (lo <= median a <= hi)%R.
Proof.
  intros Hne. unfold median.
  set (n := List.length a).
  assert (Hn : (1 <= n)%nat).
  { subst n. destruct a; [contradiction|cbn; lia]. }
  assert (Hmid : (n / 2 < n)%nat) by (apply Nat.div_lt; lia).
  destruct (Nat.even n) eqn:Heven.
  - set (u := nth (n / 2 - 1) (np_sort a) 0%R).
    set (v := nth (n / 2) (np_sort a) 0%R).
    assert (Hu : In u a) by (apply sorted_entry_in; fold n; lia).
    assert (Hv : In v a) by (apply sorted_entry_in; fold n; lia).
    destruct (Rle_dec u v) as [Hle|Hgt].
    + exists u, v. repeat split; try assumption; lra.
    + exists v, u. repeat split; try assumption; lra.
  - set (u := nth (n / 2) (np_sort a) 0%R).
    assert (Hu : In u a) by (apply sorted_entry_in; fold n; lia).
    exists u, u. repeat split; try assumption; lra.
Qed.

(** X18.  Every value of a median forecast path lies between two values
    that were actually sampled for that time step: the reduction never
    leaves the range of the samples. *)
Theorem median_forecast_within_samples (samples : list (list R))
    (t : nat) :
  (t < n_steps samples)%nat ->
  exists lo hi,
    In lo (samples_at t samples) /\ In hi (samples_at t samples) /\
    (lo <= nth t (np_quantile_axis0 samples (1 / 2)) 0 <= hi)%R.
Proof.
  intros Ht. rewrite (np_quantile_axis0_nth _ _ Ht).
  assert (Hne : samples_at t samples <> []).
  { destruct samples; [cbn in Ht; lia|discriminate]. }
  rewrite (quantile_half_is_median Hne). now apply median_within.
Qed.

Lemma median_forecast_within_samples_witness :
  exists lo hi,
    In lo (samples_at 0 demo_samples) /\ In hi (samples_at 0 demo_samples) /\
    (lo <= nth 0 (np_quantile_axis0 demo_samples (1 / 2)) 0 <= hi)%R.
Proof.
  apply median_forecast_within_samples. cbn. lia.
Defined.

Lemma insert_sorted_sorted (x : R) (l : list R) :
  StronglySorted Rle l -> StronglySorted Rle (insert_sorted x l).
Proof.
  induction 1 as [|y l Hsorted IH Hall]; cbn.
  - repeat constructor.
  - destruct (Rle_dec x y) as [Hle|Hgt].
    + constructor; [now constructor|].
      constructor; [exact Hle|].
      apply Forall_forall. intros z Hz. rewrite Forall_forall in Hall.
      specialize (Hall z Hz). lra.
    + constructor; [exact IH|].
      apply Forall_forall. intros z Hz. apply insert_sorted_in in Hz.
      destruct Hz as [->|Hz]; [lra|].
      rewrite Forall_forall in Hall. now apply Hall.
Qed.

Lemma np_sort_sorted (a : list R) : StronglySorted Rle (np_sort a).
Proof.
  induction a as [|x a IH]; [constructor|].
  rewrite np_sort_cons. now apply insert_sorted_sorted.
Qed.

Lemma insert_sorted_perm (x : R) (l : list R) :
  Permutation (insert_sorted x l) (x :: l).
Proof.
  induction l as [|y l IH]; cbn; [reflexivity|].
  destruct (Rle_dec x y); [reflexivity|].
  rewrite IH. apply perm_swap.
Qed.

Lemma np_sort_perm (a : list R) : Permutation (np_sort a) a.
Proof.
  induction a as [|x a IH]; [reflexivity|].
  rewrite np_sort_cons, insert_sorted_perm. now constructor.
Qed.

Lemma sorted_perm_unique (l1 : list R) :
  forall l2,
    StronglySorted Rle l1 -> StronglySorted Rle l2 ->
    Permutation l1 l2 -> l1 = l2.
Proof.
  induction l1 as [|x l1 IH]; intros l2 Hs1 Hs2 Hperm.
  - apply Permutation_nil in Hperm. now subst.
  - destruct l2 as [|y l2].
    { apply Permutation_sym, Permutation_nil in Hperm. discriminate. }
    apply StronglySorted_inv in Hs1. destruct Hs1 as [Hs1 Hall1].
    apply StronglySorted_inv in Hs2. destruct Hs2 as [Hs2 Hall2].
    rewrite Forall_forall in Hall1, Hall2.
    assert (Hxy : (x <= y)%R).
    { assert (Hy : In y (x :: l1))
        by (apply (Permutation_in y (Permutation_sym Hperm)); now left).
      destruct Hy as [->|Hy]; [lra|now apply Hall1]. }
    assert (Hyx : (y <= x)%R).
    { assert (Hx : In x (y :: l2))
        by (apply (Permutation_in x Hperm); now left).
      destruct Hx as [->|Hx]; [lra|now apply Hall2]. }
    assert (x = y) by lra. subst y.
    f_equal. apply IH; try assumption.
    now apply Permutation_cons_inv with x.
Qed.

Lemma quantile_1d_perm (a b : list R) (q : R) :
  Permutation a b -> quantile_1d a q = quantile_1d b q.
Proof.
  intros Hperm. unfold quantile_1d.
  rewrite (Permutation_length Hperm).
  replace (np_sort b) with (np_sort a); [reflexivity|].
  apply sorted_perm_unique; try apply np_sort_sorted.
  rewrite np_sort_perm, Hperm. symmetry. apply np_sort_perm.
Qed.

(** X19.  The median path does not depend on the order in which the
    sampled paths come: permuting the sample axis of a forecast tensor
    (whose paths all have the same number of steps) leaves the reduction
    unchanged, at 0.5 as at any other quantile. *)
Theorem median_forecast_ignores_sample_order
    (samples samples' : list (list R)) (steps : nat) (q : R) :
  Permutation samples samples' ->
  Forall (fun path => List.length path = steps) samples ->
  np_quantile_axis0 samples q = np_quantile_axis0 samples' q.
Proof.
  intros Hperm Hrect. unfold np_quantile_axis0.
  assert (Hsteps : n_steps samples' = n_steps samples).
  { rewrite Forall_forall in Hrect.
    destruct samples as [|path rest].
    - apply Permutation_nil in Hperm. now subst.
    - destruct samples' as [|path' rest'].
      + apply Permutation_sym, Permutation_nil in Hperm. discriminate.
      + cbn. rewrite (Hrect path (or_introl eq_refl)).
        apply Hrect. apply (Permutation_in path' (Permutation_sym Hperm)).
        now left. }
  rewrite Hsteps. apply map_ext. intros t.
  apply quantile_1d_perm. unfold samples_at. now apply Permutation_map.
Qed.

Lemma median_forecast_ignores_sample_order_witness :
  np_quantile_axis0 demo_samples (1 / 2)%R
  = np_quantile_axis0 [[3%R; 4%R]; [1%R; 2%R]] (1 / 2)%R.
Proof.
  apply median_forecast_ignores_sample_order with 2%nat.
  - apply perm_swap.
  - repeat constructor.
Defined.

(** ** When a cycle completes *)

Lemma gather_total (h : CloseTable) (symbols : list Symbol) :
  (forall symbol, In symbol symbols ->
     exists col, column h symbol = Ok col /\
                 NoDup (map fst (dropna col))) ->
  forall acc, exists d, gather_training_data h symbols acc = Ok d.
Proof.
  induction symbols as [|symbol rest IH]; intros Hcols acc;
    cbn [gather_training_data]; [now exists acc|].
  destruct (Hcols symbol (or_introl eq_refl)) as (col & -> & Hnd).
  cbn [Res.bind].
  assert (Hrest : forall k, In k rest ->
            exists c, column h k = Ok c /\ NoDup (map fst (dropna c)))
    by (intros k Hk; apply Hcols; now right).
  destruct (List.length (dropna col) <? 10)%nat; [now apply IH|].
  unfold resample_D_asfreq.
  destruct (map fst (dropna col)) as [|d0 ds];
    [cbn [Res.bind]; now apply IH|].
  rewrite (proj2 (has_duplicates_false (d0 :: ds)) Hnd).
  cbn [Res.bind]. now apply IH.
Qed.

Lemma filter_all {A} (f : A -> bool) (l : list A) :
  (forall a, In a l -> f a = true) -> filter f l = l.
Proof.
  induction l as [|a l IH]; intros Hall; cbn; [reflexivity|].
  rewrite (Hall a (or_introl eq_refl)). f_equal.
  apply IH. intros b Hb. apply Hall. now right.
Qed.

Lemma mapM_total {A B} (f : A -> result B) (l : list A) :
  (forall a, In a l -> exists b, f a = Ok b) ->
  exists out, Res.mapM f l = Ok out.
Proof.
  induction l as [|a l IH]; intros Hall; cbn; [now exists []|].
  destruct (Hall a (or_introl eq_refl)) as [b ->]. cbn.
  destruct IH as [bs ->]; [intros a' Ha'; apply Hall; now right|].
  cbn. now exists (b :: bs).
Qed.

Lemma median_forecasts_enough (af : list (list (list R)))
    (symbols : list Symbol) :
  forall i acc,
    (i + List.length symbols <= List.length af)%nat ->
    exists columns, median_forecasts af i symbols acc = Ok columns.
Proof.
  induction symbols as [|symbol rest IH]; intros i acc Hlen;
    cbn [median_forecasts]; [now exists acc|].
  cbn [List.length] in Hlen. unfold getitem.
  destruct (nth_error af i) as [samples|] eqn:Hs.
  - cbn [Res.bind]. apply IH. lia.
  - apply nth_error_None in Hs. lia.
Qed.

Lemma pd_DataFrame_rect_ok (columns : dict (list R)) (n : nat) :
  (forall c, In c (Dict.values columns) -> List.length c = n) ->
  pd_DataFrame columns = Ok columns.
Proof.
  intros Hrect. unfold pd_DataFrame.
  destruct (Dict.values columns) as [|c cols]; [reflexivity|].
  replace (same_length (List.length c) cols) with true; [reflexivity|].
  symmetry. apply same_length_spec. intros c' Hc'.
  rewrite (Hrect c (or_introl eq_refl)). apply Hrect. now right.
Qed.

Lemma combine_values {V} (symbols : list Symbol) (paths : list V) :
  List.length paths = List.length symbols ->
  Dict.values (combine symbols paths) = paths.
Proof.
  revert paths. induction symbols as [|k symbols IH]; intros [|v paths] Hlen;
    try discriminate; [reflexivity|].
  cbn. f_equal. apply IH. now injection Hlen.
Qed.

(** X20.  A due cycle completes whenever its inputs are in order: the
    selection is non-empty and without repetition, every selected symbol has
    a close column with at least ten prices on distinct days, the trainer
    and the loader answer, the forecaster returns one tensor per series, all
    with the same number of steps, and the solver returns one weight per
    asset.  The trainer is then called once with one series per selected
    symbol, and one target per selected symbol, in the order of the
    selection, becomes the holdings. *)
Theorem cycle_completes_when_services_answer (fw : Framework) (s : Algo)
    (h : CloseTable) :
  is_warming_up s = false ->
  (timedelta_days 80 <= time s - _last_rebalance s)%Z ->
  NoDup (selected s) ->
  selected s <> [] ->
  fetched fw s h ->
  (forall symbol, In symbol (selected s) ->
     exists col, column h symbol = Ok col /\
                 (10 <= List.length (dropna col))%nat /\
                 NoDup (map fst (dropna col))) ->
  (forall data cfg, exists out, chronos_train fw data cfg = Ok out) ->
  (forall out device, exists pl, from_pretrained fw out device = Ok pl) ->
  (forall pl ctx hz,
     exists af steps,
       predict fw pl ctx hz = Ok af /\
       List.length af = List.length ctx /\
       Forall (fun samples => n_steps samples = steps) af) ->
  (forall f x0 b c,
     exists res, minimize fw f x0 b c = Ok res /\
                 List.length (x res) = List.length x0) ->
  exists d p out ctx df x0 res,
    Dict.keys d = selected s /\
    List.length (Dict.values d) = List.length (selected s) /\
    List.length (combine (selected s) (x res)) = List.length (selected s) /\
    _trade fw s
      = (Ok tt,
         with_holdings (combine (selected s) (x res))
                       (with_last_rebalance (time s) s),
         [call_history s; call_train s d p; CallFromPretrained out;
          call_predict s ctx; call_minimize fw s x0 df;
          CallSetHoldings (combine (selected s) (x res)) true]).
Proof.
  intros Hw Hdue Hnd Hsome Hh Hcols Htrain Hload Hpredict Hsolve.
  (* gathering *)
  destruct (gather_total h (selected s)) with (acc := @nil (Symbol * Series))
    as [d Hd].
  { intros symbol Hsym. destruct (Hcols symbol Hsym) as (col & Hc & _ & Hn).
    now exists col. }
  assert (Hkeys : Dict.keys d = selected s).
  { rewrite (@gather_filter h (selected s) [] d Hd Hnd) by (intros k _ []).
    cbn. apply filter_all. intros symbol Hsym.
    apply has_enough_history_spec.
    destruct (Hcols symbol Hsym) as (col & Hc & Hten & _). now exists col. }
  assert (Hcount : List.length (Dict.values d) = List.length (selected s)).
  { rewrite <- Hkeys. unfold Dict.keys, Dict.values.
    now rewrite !length_map. }
  assert (Hpos : (1 <= List.length (selected s))%nat).
  { destruct (selected s); [contradiction|cbn; lia]. }
  (* training and loading *)
  assert (Hp : exists p, uniform (List.length (Dict.values d)) = Ok p).
  { unfold uniform. rewrite Hcount.
    destruct (Nat.eqb_spec (List.length (selected s)) 0); [lia|].
    eexists; reflexivity. }
  destruct Hp as [p Hp].
  destruct (Htrain (Dict.values d) (train_config s p)) as [out Hout].
  destruct (Hload out (_device_map s)) as [pl Hpl].
  (* forecasting *)
  destruct (mapM_total (price_tensor h) (Dict.keys d)) as [ctx Hctx].
  { intros symbol Hsym. rewrite Hkeys in Hsym.
    destruct (Hcols symbol Hsym) as (col & Hc & _).
    unfold price_tensor. rewrite Hc. cbn. eexists; reflexivity. }
  assert (Hld : loaded fw s h d p out pl ctx).
  { repeat split; assumption. }
  destruct (Hpredict pl ctx (_prediction_length s))
    as (af & steps & Haf & Hlen & Hsteps).
  destruct (context_positional _ _ Hctx) as [Hctxlen _].
  destruct (median_forecasts_enough af (Dict.keys d) 0 [])
    as [columns Hm]; [cbn; lia|].
  assert (Hndk : NoDup (Dict.keys d)) by now rewrite Hkeys.
  destruct (@median_forecasts_columns af (Dict.keys d) 0%nat [] columns
              Hm Hndk) as (paths & Hcolumns & Hplen & Hpaths).
  { intros k _ []. }
  cbn [app] in Hcolumns.
  assert (Hdf : pd_DataFrame columns = Ok columns).
  { apply pd_DataFrame_rect_ok with steps. intros c Hc.
    rewrite Hcolumns, (combine_values _ _ Hplen) in Hc.
    apply In_nth_error in Hc. destruct Hc as [j Hj].
    assert (Hjlt : (j < List.length (Dict.keys d))%nat).
    { rewrite <- Hplen. apply nth_error_Some. congruence. }
    destruct (nth_error (Dict.keys d) j) as [symbol|] eqn:Hsym.
    2:{ apply nth_error_None in Hsym. lia. }
    destruct (Hpaths j symbol Hsym) as (samples & Hs & Hpj).
    cbn in Hs. rewrite Hj in Hpj. injection Hpj as ->.
    rewrite np_quantile_axis0_length.
    rewrite Forall_forall in Hsteps. apply Hsteps.
    now apply nth_error_In with j. }
  assert (Hfc : forecast fw s h d p out pl ctx af columns).
  { split; [exact Hld|]. split; [exact Haf|]. now exists columns. }
  (* optimizing *)
  assert (Hncols : List.length (pct_change_dropna columns)
                   = List.length (selected s)).
  { rewrite <- Hkeys, <- (combine_keys _ _ Hplen), <- Hcolumns.
    rewrite <- pct_change_dropna_keys. unfold Dict.keys.
    now rewrite length_map. }
  assert (Hx0 : exists x0,
            uniform (List.length (pct_change_dropna columns)) = Ok x0).
  { unfold uniform. rewrite Hncols.
    destruct (Nat.eqb_spec (List.length (selected s)) 0); [lia|].
    eexists; reflexivity. }
  destruct Hx0 as [x0 Hx0].
  destruct (Hsolve
              (fun weights =>
                 _sharpe_ratio weights (pct_change_dropna columns)
                   (get_interest_rate fw (time s)) trading_days_per_year)
              x0
              (repeat (0%R, 1%R) (List.length (pct_change_dropna columns)))
              (fun weights => (np_sum weights - 1)%R))
    as (res & Hres & Hreslen).
  assert (Hweights : List.length (x res) = List.length (selected s)).
  { rewrite Hreslen, (uniform_length _ Hx0). exact Hncols. }
  exists d, p, out, ctx, columns, x0, res.
  split; [exact Hkeys|]. split; [exact Hcount|].
  split; [rewrite length_combine, Hweights; apply Nat.min_id|].
  apply (trade_run_complete Hw Hdue).
  rewrite <- Hkeys.
  apply RunCompletes with h pl af res; try assumption.
  rewrite portfolio_targets_enough by (cbn; rewrite Hkeys; lia).
  reflexivity.
Qed.

Lemma cycle_completes_when_services_answer_witness :
  exists d p out ctx df x0 res,
    Dict.keys d = selected single_algo /\
    List.length (Dict.values d) = List.length (selected single_algo) /\
    List.length (combine (selected single_algo) (x res))
      = List.length (selected single_algo) /\
    _trade demo_framework single_algo
      = (Ok tt,
         with_holdings (combine (selected single_algo) (x res))
                       (with_last_rebalance (time single_algo) single_algo),
         [call_history single_algo; call_train single_algo d p;
          CallFromPretrained out; call_predict single_algo ctx;
          call_minimize demo_framework single_algo x0 df;
          CallSetHoldings (combine (selected single_algo) (x res)) true]).
Proof.
  apply (@cycle_completes_when_services_answer demo_framework single_algo
           demo_table).
  - reflexivity.
  - vm_compute. discriminate.
  - repeat constructor. intros [].
  - discriminate.
  - reflexivity.
  - intros symbol [<-|[]]. exists (flat_series 0%Z 12 1%R).
    split; [reflexivity|]. split; [cbn; lia|].
    apply has_duplicates_false. reflexivity.
  - intros data cfg. eexists. reflexivity.
  - intros out device. eexists. reflexivity.
  - intros pl ctx hz. exists (map (fun _ => demo_samples) ctx), 2%nat.
    split; [reflexivity|]. split; [apply length_map|].
    apply Forall_forall. intros samples Hin. apply in_map_iff in Hin.
    destruct Hin as (c & <- & _). reflexivity.
  - intros f x0 b c. eexists. split; reflexivity.
Defined.

(** ** The rows of the table given to the solver *)

Lemma pct_change_from_length (l : list R) :
  forall prev, List.length (pct_change_from prev l) = List.length l.
Proof.
  induction l as [|p l IH]; intros prev; cbn; [reflexivity|].
  now rewrite IH.
Qed.

Lemma pct_change_length (col : list R) :
  List.length (pct_change col) = List.length col.
Proof.
  destruct col as [|p0 rest]; cbn; [reflexivity|].
  now rewrite pct_change_from_length.
Qed.

Lemma change_defined (prev p : R) :
  prev <> 0%R -> notna (change prev p) = true.
Proof.
  intros Hprev. unfold change.
  destruct (Req_dec_T prev 0); [contradiction|reflexivity].
Qed.

Lemma pct_change_from_defined (l : list R) :
  forall prev t,
    prev <> 0%R ->
    Forall (fun price => price <> 0%R) l ->
    (t < List.length l)%nat ->
    notna (cell_at t (pct_change_from prev l)) = true.
Proof.
  induction l as [|p l IH]; intros prev t Hprev Hall Ht; cbn in Ht; [lia|].
  inversion Hall as [|? ? Hp Hrest]; subst.
  destruct t as [|t]; cbn.
  - now apply change_defined.
  - apply (IH p t Hp Hrest). lia.
Qed.

Lemma pct_change_defined (col : list R) (t : nat) :
  Forall (fun price => price <> 0%R) col ->
  (1 <= t < List.length col)%nat ->
  notna (cell_at t (pct_change col)) = true.
Proof.
  intros Hall Ht. destruct col as [|p0 rest]; [cbn in Ht; lia|].
  inversion Hall as [|? ? Hp0 Hrest]; subst.
  destruct t as [|t]; [lia|]. cbn in *.
  apply (pct_change_from_defined Hp0 Hrest). lia.
Qed.

Lemma keep_length (rows : list nat) (cells : list (option R)) :
  (forall t, In t rows -> notna (cell_at t cells) = true) ->
  List.length (keep rows cells) = List.length rows.
Proof.
  unfold keep. induction rows as [|t rows IH]; intros Hall; [reflexivity|].
  cbn [flat_map]. rewrite length_app, IH.
  - specialize (Hall t (or_introl eq_refl)).
    destruct (cell_at t cells); [reflexivity|discriminate].
  - intros t' Ht'. apply Hall. now right.
Qed.

Lemma kept_rows_complete (columns : list (list (option R))) (t : nat)
    (cells : list (option R)) :
  In t (kept_rows columns) -> In cells columns ->
  notna (cell_at t cells) = true.
Proof.
  unfold kept_rows, row_is_complete. intros Ht Hcells.
  apply filter_In in Ht. destruct Ht as [_ Hrow].
  rewrite forallb_forall in Hrow. now apply Hrow.
Qed.

(** Every column of the returns has one row per kept row. *)
Lemma pct_change_dropna_rows (df : DataFrame) (label : Symbol)
    (col : list R) :
  In (label, col) (pct_change_dropna df) ->
  List.length col
  = List.length (kept_rows (map pct_change (Dict.values df))).
Proof.
  unfold pct_change_dropna. intros Hin. apply in_map_iff in Hin.
  destruct Hin as ([label' path] & Heq & Hpath). injection Heq as _ <-.
  apply keep_length. intros t Ht.
  eapply kept_rows_complete; [exact Ht|].
  apply in_map. unfold Dict.values. apply in_map_iff.
  now exists (label', path).
Qed.

(** The first row of a change table is never kept. *)
Lemma kept_rows_bound (df : DataFrame) :
  let changes := map pct_change (Dict.values df) in
  (List.length (kept_rows changes) <= n_rows changes - 1)%nat.
Proof.
  unfold kept_rows.
  destruct df as [|[label path] rest]; [reflexivity|].
  cbn [Dict.values map snd n_rows]. rewrite pct_change_length.
  destruct path as [|p0 path']; [reflexivity|].
  cbn [List.length seq filter].
  replace (row_is_complete _ 0) with false by reflexivity.
  rewrite Nat.sub_succ, Nat.sub_0_r.
  etransitivity; [apply filter_length_le|].
  now rewrite length_seq.
Qed.

(** Without a zero price every row but the first is kept. *)
Lemma kept_rows_all (df : DataFrame) (steps : nat) :
  df <> [] ->
  (forall label path, In (label, path) df -> List.length path = steps) ->
  (forall label path, In (label, path) df ->
     Forall (fun price => price <> 0%R) path) ->
  List.length (kept_rows (map pct_change (Dict.values df)))
  = (steps - 1)%nat.
Proof.
  intros Hne Hrect Hnonzero. unfold kept_rows.
  destruct df as [|[label path] rest] eqn:Hdf; [contradiction|].
  rewrite <- Hdf in *.
  assert (Hrows : n_rows (map pct_change (Dict.values df)) = steps).
  { rewrite Hdf. cbn. rewrite pct_change_length.
    apply (Hrect label). rewrite Hdf. now left. }
  rewrite Hrows.
  destruct steps as [|m]; [reflexivity|].
  cbn [seq filter].
  replace (row_is_complete (map pct_change (Dict.values df)) 0) with false.
  2:{ rewrite Hdf. cbn [Dict.values map snd].
      assert (Hlen : List.length path = S m)
        by (apply (Hrect label); rewrite Hdf; now left).
      destruct path; [discriminate|reflexivity]. }
  rewrite Nat.sub_succ, Nat.sub_0_r.
  rewrite filter_all; [apply length_seq|].
  intros t Ht. apply in_seq in Ht.
  unfold row_is_complete. apply forallb_forall. intros cells Hcells.
  apply in_map_iff in Hcells. destruct Hcells as (col & <- & Hcol).
  unfold Dict.values in Hcol. apply in_map_iff in Hcol.
  destruct Hcol as ([label' col'] & Hsnd & Hentry). cbn in Hsnd. subst col'.
  apply pct_change_defined; [exact (Hnonzero _ _ Hentry)|].
  rewrite (Hrect _ _ Hentry). lia.
Qed.

(** A path that stays at zero loses the row of the undefined change: of the
    four prices 1, 0, 0, 2 two returns are left. *)
Lemma zero_run_loses_a_row :
  exists col,
    pct_change_dropna zero_run_curves = [("AAA"%string, col)] /\
    List.length col = 2%nat.
Proof.
  assert (H10 : change 1 0 = Some (0 / 1 - 1)%R).
  { unfold change. destruct (Req_dec_T 1 0); [lra|reflexivity]. }
  assert (H00 : change 0 0 = None).
  { unfold change. destruct (Req_dec_T 0 0); [reflexivity|lra]. }
  assert (H02 : change 0 2 = Some (2 / 0 - 1)%R).
  { unfold change. destruct (Req_dec_T 0 0); [|lra].
    destruct (Req_dec_T 2 0); [lra|reflexivity]. }
  unfold pct_change_dropna, zero_run_curves, kept_rows, row_is_complete,
    keep, cell_at.
  cbn. rewrite H10, H00, H02. cbn. eexists. split; reflexivity.
Qed.

(** The median of a single sample path is that path. *)
Lemma zero_run_median : zero_run_forecasts_df = zero_run_curves.
Proof.
  unfold zero_run_forecasts_df, zero_run_curves, zero_run_samples,
    np_quantile_axis0.
  cbn [n_steps List.length seq map samples_at nth].
  now rewrite !quantile_half_is_median by discriminate.
Qed.

(** X17.  The solver is reached only when the median paths of all tradable
    assets have one common number of time steps, that of their forecast
    tensors.  The table of returns it is given is rectangular as well: all
    its columns have the same number of rows, at most one fewer than the
    number of steps, since the first row of the changes is missing and
    [dropna] removes a row as soon as one column is missing there; when no
    median path contains a zero price, exactly one fewer. *)
Theorem returns_table_is_rectangular (fw : Framework) (s : Algo)
    (r : result unit) (s' : Algo) (log : list Call)
    (x0 : list R) (returns : DataFrame) (rf : R) :
  _trade fw s = (r, s', log) ->
  In (CallMinimize x0 returns rf) log ->
  exists steps rows (pl : Pipeline fw) context all_forecasts forecasts_df,
    predict fw pl context (_prediction_length s) = Ok all_forecasts /\
    (forall j, (j < List.length x0)%nat ->
       exists samples,
         nth_error all_forecasts j = Some samples /\
         n_steps samples = steps) /\
    returns = pct_change_dropna forecasts_df /\
    (forall label path,
       In (label, path) forecasts_df -> List.length path = steps) /\
    (forall label col,
       In (label, col) returns -> List.length col = rows) /\
    (rows <= steps - 1)%nat /\
    ((forall label path,
        In (label, path) forecasts_df ->
        Forall (fun price => price <> 0%R) path) ->
     rows = (steps - 1)%nat).
Proof.
  intros Hrun Hin.
  destruct (trade_runs _ _ Hrun) as [->|Hr]; [destruct Hin|].
  destruct (run_minimize_call Hr _ _ _ Hin)
    as (h & d & p & out & pl & ctx & af & df & Hf & -> & Hx0).
  pose proof (uniform_length _ Hx0) as Hlen0.
  destruct (uniform_nonempty _ Hx0) as [Hsome _].
  destruct (forecast_table Hf) as (_ & paths & Hdf & Hlen & Hpaths).
  assert (Hrect : exists n, forall c, In c (Dict.values df) ->
                                      List.length c = n).
  { destruct Hf as (_ & _ & columns & _ & Hpd).
    exact (pd_DataFrame_rectangular _ Hpd). }
  destruct Hrect as [steps Hrect].
  assert (Hpath : forall label path,
            In (label, path) df -> List.length path = steps).
  { intros label path Hentry. apply Hrect. unfold Dict.values.
    apply in_map_iff. now exists (label, path). }
  assert (Hne : df <> []).
  { intros Hnil. rewrite Hnil in Hsome. cbn in Hsome. lia. }
  assert (Hnrows : n_rows (map pct_change (Dict.values df)) = steps).
  { destruct df as [|[label path] rest]; [contradiction|].
    cbn. rewrite pct_change_length. apply (Hpath label). now left. }
  exists steps, (List.length (kept_rows (map pct_change (Dict.values df)))),
         pl, ctx, af, df.
  split; [exact (proj1 (proj2 Hf))|]. split; [|split; [reflexivity|]].
  - intros j Hj. rewrite Hlen0 in Hj.
    assert (Hcols : List.length (pct_change_dropna df)
                    = List.length (Dict.keys d)).
    { rewrite <- (combine_keys _ _ Hlen), <- Hdf.
      rewrite <- pct_change_dropna_keys. unfold Dict.keys.
      now rewrite length_map. }
    rewrite Hcols in Hj.
    destruct (nth_error (Dict.keys d) j) as [symbol|] eqn:Hsym.
    2:{ apply nth_error_None in Hsym. lia. }
    destruct (Hpaths j symbol Hsym) as (samples & Hs & Hp).
    exists samples. split; [exact Hs|].
    rewrite <- (np_quantile_axis0_length samples (1 / 2)%R).
    apply (Hpath symbol).
    rewrite Hdf. apply nth_error_In with j. now apply nth_error_combine.
  - split; [exact Hpath|]. split; [|split].
    + intros label col Hcol. exact (pct_change_dropna_rows _ _ _ Hcol).
    + rewrite <- Hnrows. apply kept_rows_bound.
    + intros Hnonzero. now apply kept_rows_all.
Qed.

Lemma returns_table_is_rectangular_witness :
  exists steps rows,
    steps = 4%nat /\ rows = 2%nat /\
    (forall label col,
       In (label, col) (pct_change_dropna zero_run_forecasts_df) ->
       List.length col = rows) /\
    (rows <= steps - 1)%nat.
Proof.
  assert (Hin : In (CallMinimize [(1 / INR 1)%R]
                      (pct_change_dropna zero_run_forecasts_df) 0%R)
                   (snd (_trade zero_run_framework (demo_algo 100 false))))
    by (do 4 right; left; reflexivity).
  destruct (@returns_table_is_rectangular zero_run_framework
              (demo_algo 100 false) (Ok tt) demo_rebalanced
              (snd (_trade zero_run_framework (demo_algo 100 false)))
              _ _ _ eq_refl Hin)
    as (steps & rows & pl & ctx & af & df
        & Hpredict & Htensors & _ & _ & Hrows & Hle & _).
  exists steps, rows. split; [|split; [|split; [exact Hrows | exact Hle]]].
  - destruct (Htensors 0%nat) as (samples & Hnth & Hsteps); [cbn; lia|].
    cbn in Hpredict. injection Hpredict as <-.
    destruct ctx as [|c ctx']; [discriminate|].
    cbn in Hnth. injection Hnth as <-. now rewrite <- Hsteps.
  - destruct zero_run_loses_a_row as (col & Htable & Hcol).
    rewrite <- Hcol. symmetry. apply (Hrows "AAA"%string).
    rewrite zero_run_median, Htable. now left.
Defined.
